(** * Dynamic pricing: the pricing evaluation pipeline of [dynamic_pricing.py]

    The script is a Streamlit page over Snowpark data frames.  The data
    frames are embedded as lists of rows, a row as an association list
    from column names to cells (the script addresses every column by its
    name); SQL NULL is a cell of its own.  Numeric cells are written as
    rationals; the warehouse's floating-point arithmetic is not
    modelled, and no theorem below rests on the rounded value of a sum
    or of a quotient.  Exceptions are Python exceptions: a class name and
    the text [str(e)].  The script body runs in a small monad that threads the
    warehouse and the rendered page and stops at the first exception,
    which the catch-all handler at the end of the script renders. *)

From Stdlib Require Import List String Ascii Bool ZArith QArith Qabs Qround
  Lia Permutation Sorted RelationClasses OrderedTypeEx.
Import ListNotations.
Open Scope string_scope.
Open Scope list_scope.
Open Scope Q_scope.

(** ** Cells, rows, data frames *)

Inductive value : Type :=
| VNull : value
| VNum (q : Q) : value
| VStr (s : string) : value
| VTime (t : Z) : value.

Definition row : Type := list (string * value).
Definition dataframe : Type := list row.

(** Python exceptions, as far as the script can tell them apart: the class
    of the exception and its message [str(e)]. *)
Record exn : Type := mkExn { exn_type : string; exn_msg : string }.

Inductive result (A : Type) : Type :=
| Ok (a : A) : result A
| Raise (e : exn) : result A.
Arguments Ok {A} a.
Arguments Raise {A} e.

Definition rbind {A B} (r : result A) (k : A -> result B) : result B :=
  match r with
  | Ok a => k a
  | Raise e => Raise e
  end.

Declare Scope result_scope.
Delimit Scope result_scope with result.
Notation "x <- r ;; k" := (rbind r (fun x => k))
  (at level 61, r at next level, right associativity) : result_scope.

Fixpoint mapM {A B} (f : A -> result B) (l : list A) : result (list B) :=
  match l with
  | [] => Ok []
  | a :: l' =>
      (b <- f a ;; bs <- mapM f l' ;; Ok (b :: bs))%result
  end.

(** The warehouse reports every failed statement as a
    [SnowparkSQLException]. *)
Definition sql_error (msg : string) : exn :=
  mkExn "SnowparkSQLException" msg.

Definition invalid_identifier (c : string) : exn :=
  sql_error ("invalid identifier " ++ c)%string.
Definition not_numeric : exn := sql_error "Numeric value is not recognized".

Module DataFrame.

(** [row[c]]: the cell of column [c], [None] when the row has no such
    column. *)
Fixpoint get (c : string) (r : row) : option value :=
  match r with
  | [] => None
  | (k, v) :: r' => if String.eqb c k then Some v else get c r'
  end.

(** [F.col(c)] evaluated on one row. *)
Definition col (c : string) (r : row) : result value :=
  match get c r with
  | Some v => Ok v
  | None => Raise (invalid_identifier c)
  end.

(** Replace the cell of column [c], keeping the column's position. *)
Fixpoint set (c : string) (v : value) (r : row) : row :=
  match r with
  | [] => []
  | (k, w) :: r' =>
      if String.eqb c k then (k, v) :: r' else (k, w) :: set c v r'
  end.

Definition has_col (c : string) (r : row) : bool :=
  match get c r with Some _ => true | None => false end.

(** [with_column(c, v)] on one row: an existing column of that name is
    replaced, a new one is added at the end. *)
Definition with_column_row (c : string) (v : value) (r : row) : row :=
  if has_col c r then set c v r else r ++ [(c, v)].

Definition with_column (c : string) (f : row -> result value)
    (df : dataframe) : result dataframe :=
  mapM (fun r => (v <- f r ;; Ok (with_column_row c v r))%result) df.

(** SQL equality of two cells as a filter or join condition: NULL never
    compares equal. *)
Definition value_eqb (a b : value) : bool :=
  match a, b with
  | VNum p, VNum q => Qeq_bool p q
  | VStr s, VStr t => String.eqb s t
  | VTime s, VTime t => Z.eqb s t
  | _, _ => false
  end.

Definition cell_is (c : string) (v : value) (r : row) : bool :=
  match get c r with
  | Some w => value_eqb w v
  | None => false
  end.

(** Grouping equality, as DISTINCT uses it: two NULLs are the same
    value. *)
Definition same_value (a b : value) : bool :=
  match a, b with
  | VNull, VNull => true
  | _, _ => value_eqb a b
  end.

(** [select(c).distinct()] of a single column: the first occurrence of
    each value. *)
Fixpoint distinct_from (seen l : list value) : list value :=
  match l with
  | [] => []
  | v :: l' =>
      if existsb (same_value v) seen then distinct_from seen l'
      else v :: distinct_from (v :: seen) l'
  end.

Definition distinct (l : list value) : list value := distinct_from [] l.

(** The cells of column [c], one per row. *)
Definition select1 (c : string) (df : dataframe) : result (list value) :=
  mapM (col c) df.

End DataFrame.

(** ** SQL expressions and statements, as the warehouse evaluates them *)

Module Sql.
Import DataFrame.

(** [a + b], [a - b], [a * b]: NULL in, NULL out; a cell that is not a
    number is refused. *)
Definition arith (op : Q -> Q -> Q) (a b : value) : result value :=
  match a, b with
  | VNum p, VNum q => Ok (VNum (op p q))
  | VNull, VNull | VNull, VNum _ | VNum _, VNull => Ok VNull
  | _, _ => Raise not_numeric
  end.

Definition add : value -> value -> result value := arith Qplus.
Definition sub : value -> value -> result value := arith Qminus.
Definition mul : value -> value -> result value := arith Qmult.

(** [a / b]: the warehouse refuses a zero divisor with an exception of
    its own, [zero_divisor] (its class and text are the server's); it has
    no infinity and no NaN as a quotient. *)
Definition div (zero_divisor : exn) (a b : value) : result value :=
  match a, b with
  | VNum p, VNum q =>
      if Qeq_bool q 0 then Raise zero_divisor else Ok (VNum (p / q))
  | VNull, VNull | VNull, VNum _ | VNum _, VNull => Ok VNull
  | _, _ => Raise not_numeric
  end.

(** One step of the SUM aggregate: NULL cells are skipped. *)
Definition sum_step (v acc : value) : result value :=
  match v, acc with
  | VNull, _ => Ok acc
  | VNum p, VNull => Ok (VNum p)
  | VNum p, VNum q => Ok (VNum (p + q))
  | _, _ => Raise not_numeric
  end.

(** SUM over the cells of a column: NULL when no cell counts (in
    particular over no rows at all). *)
Fixpoint sum_cells (l : list value) : result value :=
  match l with
  | [] => Ok VNull
  | v :: l' => (acc <- sum_cells l' ;; sum_step v acc)%result
  end.

(** [df.select(F.sum(c))]. *)
Definition sum (c : string) (df : dataframe) : result value :=
  (cells <- select1 c df ;; sum_cells cells)%result.

(** ROUND(q, d), half away from zero, as a fraction over [10^d]. *)
Definition round_half_away (q : Q) (d : nat) : Q :=
  let p := (10 ^ Z.of_nat d)%Z in
  (Z.sgn (Qnum q) * Qfloor (Qabs q * inject_Z p + (1 # 2)))%Z # Z.to_pos p.

Definition round (v : value) (d : nat) : result value :=
  match v with
  | VNum q => Ok (VNum (round_half_away q d))
  | VNull => Ok VNull
  | _ => Raise not_numeric
  end.

(** *** Inner join on a list of shared columns *)

Definition is_key (on : list string) (kv : string * value) : bool :=
  existsb (String.eqb (fst kv)) on.

Definition keys_match (on : list string) (l r : row) : bool :=
  forallb (fun c =>
             match get c l, get c r with
             | Some a, Some b => value_eqb a b
             | _, _ => false
             end) on.

(** A column of one side that is no join column and that the other side
    does not have as well. *)
Definition own (on : list string) (other : row) (kv : string * value)
    : bool :=
  negb (is_key on kv) && negb (has_col (fst kv) other).

(** The joined row: the shared columns once, then the columns that only
    the left row has, then those that only the right row has.  A name
    that is no join column and occurs on both sides is kept by Snowpark
    under two generated names; the plain name resolves to neither, and
    the joined row has no column of that name. *)
Definition join_row (on : list string) (l r : row) : row :=
  filter (is_key on) l ++ filter (own on r) l ++ filter (own on l) r.

Definition has_cols (on : list string) (r : row) : bool :=
  forallb (fun c => has_col c r) on.

Definition first_missing (on : list string) (r : row) : option string :=
  find (fun c => negb (has_col c r)) on.

(** Every row of a table must have the join columns, else the statement
    does not compile. *)
Fixpoint check_cols (on : list string) (df : dataframe) : result unit :=
  match df with
  | [] => Ok tt
  | r :: df' =>
      match first_missing on r with
      | Some c => Raise (invalid_identifier c)
      | None => check_cols on df'
      end
  end.

(** [left.join(right, on)]: Snowpark's default join type is the inner
    join, so a left row without a partner contributes no row, and one
    with several partners contributes one row per partner. *)
Definition join (left right : dataframe) (on : list string)
    : result dataframe :=
  (_ <- check_cols on left ;;
   _ <- check_cols on right ;;
   Ok (flat_map
         (fun l => map (join_row on l) (filter (keys_match on l) right))
         left))%result.

(** *** ORDER BY c DESC *)

Definition rank (v : value) : nat :=
  match v with
  | VNum _ => 0%nat
  | VStr _ => 1%nat
  | VTime _ => 2%nat
  | VNull => 3%nat
  end.

(** The sort order of cells; NULL counts as larger than every value, so
    it comes first in a descending sort. *)
Definition value_leb (a b : value) : bool :=
  match a, b with
  | VNum p, VNum q => Qle_bool p q
  | VStr s, VStr t => String.leb s t
  | VTime s, VTime t => Z.leb s t
  | _, _ => Nat.leb (rank a) (rank b)
  end.

Definition cell (c : string) (r : row) : value :=
  match get c r with
  | Some v => v
  | None => VNull
  end.

(** [a] may stand before [b] in the descending order on column [c]. *)
Definition desc (c : string) (a b : row) : bool :=
  value_leb (cell c b) (cell c a).

Fixpoint insert_desc (c : string) (r : row) (df : dataframe) : dataframe :=
  match df with
  | [] => [r]
  | r' :: df' =>
      if desc c r r' then r :: r' :: df' else r' :: insert_desc c r df'
  end.

Fixpoint order_by_desc (c : string) (df : dataframe) : dataframe :=
  match df with
  | [] => []
  | r :: df' => insert_desc c r (order_by_desc c df')
  end.

End Sql.

(** ** The warehouse, the operator and the page *)

(** The tables the script reads and writes, the server clock, the time one
    statement takes, and what the server may answer besides a result:
    whether the store refuses an append, whether fetching the scored
    frame for the chart or reading the history fails (and with which
    exception), and the exception it raises for a zero divisor.  The
    table schemas are not part of the script: a table is whatever rows it
    holds. *)
Record warehouse : Type := mkWarehouse {
  pricing : dataframe;
  pricing_detail : dataframe;
  pricing_final : dataframe;
  now : Z;
  latency : nat;
  write_fault : option exn;
  to_pandas_fault : option exn;
  history_fault : option exn;
  zero_divisor : exn
}.

(** One edit in the data editor: the cell at row [edit_row], column
    [edit_col] gets [edit_val]. *)
Record edit : Type := mkEdit {
  edit_row : nat;
  edit_col : string;
  edit_val : value
}.

(** What the operator does on the page in one run of the script. *)
Record operator : Type := mkOperator {
  brand_choice : nat;
  item_choice : nat;
  edits : list edit;
  update_clicked : bool
}.

(** The elements the script renders (styling left out). *)
Inductive element : Type :=
| Metric (label : string) (v : value)
| Chart (df : dataframe)
| Success (msg : string)
| Error (msg : string)
| Info (msg : string)
| Table (df : dataframe).

Record state : Type := mkState { wh : warehouse; page : list element }.

(** The script body: state passing, stopping at the first exception with
    the state reached so far. *)
Definition M (A : Type) : Type := state -> result A * state.

Definition ret {A} (a : A) : M A := fun s => (Ok a, s).

Definition bind {A B} (m : M A) (k : A -> M B) : M B :=
  fun s =>
    match m s with
    | (Ok a, s') => k a s'
    | (Raise e, s') => (Raise e, s')
    end.

Declare Scope script_scope.
Delimit Scope script_scope with script.
Notation "x <- m ;; k" := (bind m (fun x => k))
  (at level 61, m at next level, right associativity) : script_scope.
Notation "m ;;; k" := (bind m (fun _ => k))
  (at level 61, right associativity) : script_scope.

Definition tick (w : warehouse) : warehouse :=
  mkWarehouse (pricing w) (pricing_detail w) (pricing_final w)
    (now w + Z.of_nat (latency w)) (latency w) (write_fault w)
    (to_pandas_fault w) (history_fault w) (zero_divisor w).

Definition append_final (rows : dataframe) (w : warehouse) : warehouse :=
  mkWarehouse (pricing w) (pricing_detail w) (pricing_final w ++ rows)
    (now w) (latency w) (write_fault w)
    (to_pandas_fault w) (history_fault w) (zero_divisor w).

(** A statement that the server may refuse before it is evaluated. *)
Definition unless {A} (fault : option exn) (r : result A) : result A :=
  match fault with
  | Some e => Raise e
  | None => r
  end.

(** A statement sent to the warehouse: it takes its time and yields its
    result or its error. *)
Definition query {A} (q : warehouse -> result A) : M A :=
  fun s => let w := tick (wh s) in (q w, mkState w (page s)).

(** [st.metric], [st.success], ...: one more element on the page. *)
Definition render (el : element) : M unit :=
  fun s => (Ok tt, mkState (wh s) (page s ++ [el])).

Module Streamlit.
Import DataFrame.

(** [st.selectbox(label, options)]: the option the operator picked, the
    first one by default, None without options. *)
Definition selectbox (options : list value) (choice : nat) : value :=
  nth choice options (hd VNull options).

Definition same_kind (a b : value) : bool :=
  match a, b with
  | VNull, _ | _, VNull => true
  | VNum _, VNum _ | VStr _, VStr _ | VTime _, VTime _ => true
  | _, _ => false
  end.

(** [NumberColumn(min_value=0, max_value=1000)]. *)
Definition in_price_range (v : value) : bool :=
  match v with
  | VNum q => Qle_bool 0 q && Qle_bool q 1000
  | _ => true
  end.

Definition upper_ascii (a : ascii) : ascii :=
  let n := nat_of_ascii a in
  if (Nat.leb 97 n && Nat.leb n 122)%bool then ascii_of_nat (n - 32) else a.

Fixpoint upper (s : string) : string :=
  match s with
  | EmptyString => EmptyString
  | String a s' => String (upper_ascii a) (upper s')
  end.

(** The label that column [c] carries in the pandas frame the editor
    works on: the warehouse's spelling of the name, in capitals (as in
    [df_demand_pd["DAY_OF_WEEK"]] further down the script). *)
Definition pandas_label (c : string) : string := upper c.

(** The editor takes a new cell of the column's type (a NULL cell takes
    any); the one column configuration of the script applies to the
    column whose label is its key, ["new_price"]. *)
Definition accepts (c : string) (old new : value) : bool :=
  same_kind old new
  && (if String.eqb (pandas_label c) "new_price"
      then in_price_range new else true).

Fixpoint update_nth (n : nat) (f : row -> row) (df : dataframe)
    : dataframe :=
  match df, n with
  | [], _ => []
  | r :: df', O => f r :: df'
  | r :: df', S n' => r :: update_nth n' f df'
  end.

Definition edit_cell (c : string) (v : value) (r : row) : row :=
  match get c r with
  | Some old => if accepts c old v then set c v r else r
  | None => r
  end.

Definition apply_edit (df : dataframe) (e : edit) : dataframe :=
  update_nth (edit_row e) (edit_cell (edit_col e) (edit_val e)) df.

(** [st.data_editor(df, ...)]: the frame with the operator's edits; no
    column is disabled, rows are neither added nor removed. *)
Definition data_editor (df : dataframe) (es : list edit) : dataframe :=
  fold_left apply_edit es df.

End Streamlit.

(** ** The script *)

(** The model input features, in the order of the source list. *)
Definition feature_cols : list string :=
  [ "new_price";
    "base_price";
    "price_hist_dow";
    "price_year_dow";
    "price_month_dow";
    "price_change_hist_dow";
    "price_change_year_dow";
    "price_change_month_dow";
    "price_hist_roll";
    "price_year_roll";
    "price_month_roll";
    "price_change_hist_roll";
    "price_change_year_roll";
    "price_change_month_roll" ].

Definition join_cols : list string := ["brand"; "item"; "day_of_week"].

Definition connection_hint : string :=
  "Please check your Snowflake connection and try again.".

Section Script.
Import DataFrame.

(** The demand model: a function registered in the warehouse, called
    with positional arguments only; it may fail. *)
Variable udf_demand_price : list value -> result value.

(** [[F.col(c) for c in feature_cols]] on one row. *)
Definition udf_args (r : row) : result (list value) :=
  mapM (fun c => col c r) feature_cols.

(** [session.table("pricing").with_column("comment", F.lit(""))]. *)
Definition load_df (w : warehouse) : result dataframe :=
  with_column "comment" (fun _ => Ok (VStr "")) (pricing w).

Definition filter_brand (brand : value) (df : dataframe) : dataframe :=
  filter (cell_is "brand" brand) df.

Definition filter_brand_item (brand item : value) (df : dataframe)
    : dataframe :=
  filter (fun r => cell_is "brand" brand r && cell_is "item" item r) df.

(** One row of the [select] that builds [df_demand]. *)
Definition df_demand_row (r : row) : result row :=
  (day <- col "day_of_week" r ;;
   cur_demand <- col "current_price_demand" r ;;
   price <- col "new_price" r ;;
   cost <- col "item_cost" r ;;
   basket <- col "average_basket_profit" r ;;
   cur_profit <- col "current_price_profit" r ;;
   args <- udf_args r ;;
   demand <- udf_demand_price args ;;
   Ok [ ("day_of_week", day);
        ("current_price_demand", cur_demand);
        ("new_price", price);
        ("item_cost", cost);
        ("average_basket_profit", basket);
        ("current_price_profit", cur_profit);
        ("new_price_demand", demand) ])%result.

Definition df_demand (set_prices detail : dataframe) : result dataframe :=
  (joined <- Sql.join set_prices detail join_cols ;;
   mapM df_demand_row joined)%result.

(** [round((sum(new) - sum(current)) / sum(current) * 100, 1)] over the
    columns [new] and [current] of a frame. *)
Definition lift (zero_divisor : exn) (new current : string)
    (df : dataframe) : result value :=
  (sn <- Sql.sum new df ;;
   sc <- Sql.sum current df ;;
   diff <- Sql.sub sn sc ;;
   sc' <- Sql.sum current df ;;
   ratio <- Sql.div zero_divisor diff sc' ;;
   pct <- Sql.mul ratio (VNum 100) ;;
   Sql.round pct 1)%result.

Definition demand_lift (zero_divisor : exn) (rows : dataframe)
    : result value :=
  lift zero_divisor "new_price_demand" "current_price_demand" rows.

(** [new_price_demand * (new_price - item_cost + average_basket_profit)]
    on one row. *)
Definition new_price_profit (r : row) : result value :=
  (demand <- col "new_price_demand" r ;;
   price <- col "new_price" r ;;
   cost <- col "item_cost" r ;;
   margin <- Sql.sub price cost ;;
   basket <- col "average_basket_profit" r ;;
   unit_profit <- Sql.add margin basket ;;
   Sql.mul demand unit_profit)%result.

Definition profit_lift (zero_divisor : exn) (rows : dataframe)
    : result value :=
  (with_profit <- with_column "new_price_profit" new_price_profit rows ;;
   lift zero_divisor "new_price_profit" "current_price_profit"
     with_profit)%result.

(** The append of the button: every row of the edited frame with the
    server's current timestamp. *)
Definition stamped (set_prices : dataframe) (w : warehouse) : dataframe :=
  map (with_column_row "timestamp" (VTime (now w))) set_prices.

Definition save_as_table (set_prices : dataframe) : M unit :=
  fun s =>
    let w := tick (wh s) in
    match write_fault w with
    | Some e => (Raise e, mkState w (page s))
    | None =>
        (Ok tt, mkState (append_final (stamped set_prices w) w) (page s))
    end.

Definition history_df (w : warehouse) : dataframe :=
  Sql.order_by_desc "timestamp" (pricing_final w).

(** The statements behind the two metrics: each one scores the joined
    rows again (the frame [df_demand] is lazy) and aggregates them. *)
Definition demand_lift_query (set_prices : dataframe) (w : warehouse)
    : result value :=
  (rows <- df_demand set_prices (pricing_detail w) ;;
   demand_lift (zero_divisor w) rows)%result.

Definition profit_lift_query (set_prices : dataframe) (w : warehouse)
    : result value :=
  (rows <- df_demand set_prices (pricing_detail w) ;;
   profit_lift (zero_divisor w) rows)%result.

(** Both lifts are computed before either is shown. *)
Definition evaluate (set_prices : dataframe) : M (value * value) :=
  (dl <- query (demand_lift_query set_prices) ;;
   pl <- query (profit_lift_query set_prices) ;;
   ret (dl, pl))%script.

(** The button and what follows its append. *)
Definition update_prices (set_prices : dataframe) : M unit :=
  (save_as_table set_prices ;;;
   render (Success "Prices updated successfully!"))%script.

(** The "Price Management" tab: pick a brand and an item, edit the rows
    of that scope. *)
Definition price_management (op : operator) : M dataframe :=
  (df <- query load_df ;;
   brands <- query (fun _ => select1 "brand" df) ;;
   let brand := Streamlit.selectbox (distinct brands) (brand_choice op) in
   items <- query (fun _ => select1 "item" (filter_brand brand df)) ;;
   let item := Streamlit.selectbox (distinct items) (item_choice op) in
   shown <- query (fun _ => Ok (filter_brand_item brand item df)) ;;
   ret (Streamlit.data_editor shown (edits op)))%script.

(** [df_demand.to_pandas()]: the scored frame is fetched once more, for
    the chart. *)
Definition to_pandas (set_prices : dataframe) (w : warehouse)
    : result dataframe :=
  unless (to_pandas_fault w) (df_demand set_prices (pricing_detail w)).

(** The "Demand Forecast" tab: the two metrics, then the chart. *)
Definition demand_forecast (set_prices : dataframe) : M unit :=
  (lifts <- evaluate set_prices ;;
   render (Metric "Demand Lift" (fst lifts)) ;;;
   render (Metric "Profit Lift" (snd lifts)) ;;;
   rows <- query (to_pandas set_prices) ;;
   render (Chart rows))%script.

(** [st.dataframe(history_df)]: the history is read from the warehouse. *)
Definition read_history (w : warehouse) : result dataframe :=
  unless (history_fault w) (Ok (history_df w)).

(** The "View Price History" expander. *)
Definition view_history : M unit :=
  (history <- query read_history ;;
   render (Table history))%script.

(** The body of the [try] block. *)
Definition body (op : operator) : M unit :=
  (set_prices <- price_management op ;;
   demand_forecast set_prices ;;;
   (if update_clicked op then update_prices set_prices else ret tt) ;;;
   view_history)%script.

(** The [except Exception as e] handler. *)
Definition handler (e : exn) : list element :=
  [ Error ("An error occurred: " ++ exn_msg e)%string;
    Info connection_hint ].

(** One run of the script. *)
Definition run (op : operator) (w : warehouse) : state :=
  match body op (mkState w []) with
  | (Ok _, s) => s
  | (Raise e, s) => mkState (wh s) (page s ++ handler e)
  end.

End Script.

(** ** Reading a frame as numbers *)


Definition num (c : string) (r : row) : Q :=
  match DataFrame.get c r with
  | Some (VNum q) => q
  | _ => 0
  end.





(** The profit of a scored row at the new price. *)
Definition profit_at_new_price (r : row) : Q :=
  num "new_price_demand" r
  * (num "new_price" r - num "item_cost" r + num "average_basket_profit" r).

(** The frame with its profit column. *)
Definition with_profit (rows : dataframe) : dataframe :=
  map (fun r => DataFrame.with_column_row "new_price_profit"
                  (VNum (profit_at_new_price r)) r) rows.

(** What the warehouse holds and how it answers, the clock apart. *)
Definition tables (w : warehouse)
    : dataframe * dataframe * dataframe * nat
      * (option exn * option exn * option exn * exn) :=
  (pricing w, pricing_detail w, pricing_final w, latency w,
   (write_fault w, to_pandas_fault w, history_fault w, zero_divisor w)).

(** Row [a] may stand before row [b] in the history: its timestamp is
    not the older one. *)
Definition newer_first (a b : row) : Prop :=
  Sql.desc "timestamp" a b = true.

(** [r] ends with an exception of class [kind]. *)
Definition fails_with {A} (kind : string) (r : result A) : Prop :=
  exists msg, r = Raise (mkExn kind msg).

(** The column names of a row, in their order. *)
Definition columns (r : row) : list string := map fst r.

(** The row belongs to the scope [brand], [item]. *)
Definition in_scope (brand item : value) (r : row) : Prop :=
  DataFrame.cell_is "brand" brand r = true
  /\ DataFrame.cell_is "item" item r = true.

(** The columns of the frame [df_demand], in the order of its [select]. *)
Definition df_demand_cols : list string :=
  [ "day_of_week"; "current_price_demand"; "new_price"; "item_cost";
    "average_basket_profit"; "current_price_profit"; "new_price_demand" ].

(** ** Sample data *)

Module Sample.

(** Twelve historical features, all 1. *)
Definition history_features : row :=
  map (fun c => (c, VNum 1)) (skipn 2 feature_cols).

Definition pricing_row (brand item day : string) (new_price base_price : Q)
    : row :=
  [ ("brand", VStr brand); ("item", VStr item); ("day_of_week", VStr day);
    ("new_price", VNum new_price); ("base_price", VNum base_price) ]
    ++ history_features.

Definition detail_row (brand item day : string)
    (item_cost average_basket_profit current_price_demand
       current_price_profit : Q) : row :=
  [ ("brand", VStr brand); ("item", VStr item); ("day_of_week", VStr day);
    ("item_cost", VNum item_cost);
    ("average_basket_profit", VNum average_basket_profit);
    ("current_price_demand", VNum current_price_demand);
    ("current_price_profit", VNum current_price_profit) ].

(** A demand model: forty units per unit of the proposed price (its first
    argument). *)
Definition forty_per_unit (args : list value) : result value :=
  match args with
  | VNum p :: _ => Ok (VNum (p * 40))
  | _ => Raise (mkExn "ValueError" "new_price is not a number")
  end.

(** A demand model that fails on every call. *)
Definition failing (kind msg : string) (args : list value) : result value :=
  Raise (mkExn kind msg).

Definition monday : row := pricing_row "Grill" "Burger" "Monday" 3 3.
Definition tuesday : row := pricing_row "Grill" "Burger" "Tuesday" 1 1.

Definition monday_detail : row :=
  detail_row "Grill" "Burger" "Monday" 2 1 100 200.
Definition tuesday_detail : row :=
  detail_row "Grill" "Burger" "Tuesday" 2 1 50 100.

(** Two days of one item; baseline demand 100 and 50. *)
Definition warehouse0 : warehouse :=
  mkWarehouse [monday; tuesday] [monday_detail; tuesday_detail] []
    1000 1 None None None (sql_error "Division by zero").

(** The same, with no detail row for Tuesday. *)
Definition warehouse_no_tuesday : warehouse :=
  mkWarehouse [monday; tuesday] [monday_detail] [] 1000 1
    None None None (sql_error "Division by zero").


(** The same as [warehouse0], with no detail rows at all. *)
Definition warehouse_no_detail : warehouse :=
  mkWarehouse [monday; tuesday] [] [] 1000 1
    None None None (sql_error "Division by zero").



(** The operator keeps the defaults and changes nothing. *)
Definition looks : operator := mkOperator 0 0 [] false.

(** The operator presses "Update Prices" without editing. *)
Definition commits : operator := mkOperator 0 0 [] true.

(** The operator types a comment into the first row and presses "Update
    Prices". *)
Definition comments : operator :=
  mkOperator 0 0 [mkEdit 0 "comment" (VStr "promo")] true.

(** The operator tries 5000 for Monday's price, then sets Tuesday's to
    2.5. *)
Definition reprices : operator :=
  mkOperator 0 0
    [ mkEdit 0 "new_price" (VNum 5000); mkEdit 1 "new_price" (VNum (5 # 2)) ]
    false.

(** Monday's row with its columns in another order and one more column. *)
Definition monday_shuffled : row :=
  ("note", VStr "x") :: rev monday.

End Sample.


(** ** Rows and columns *)

Section RowFacts.
Import DataFrame.

Lemma get_set_same c v r :
  has_col c r = true -> get c (set c v r) = Some v.
Proof.
  unfold has_col.
  induction r as [|[k w] r IH]; simpl; [discriminate|].
  destruct (String.eqb c k) eqn:E; simpl; rewrite E; auto.
Qed.

Lemma get_set_other c c' v r :
  c' <> c -> get c' (set c v r) = get c' r.
Proof.
  intros Hne.
  induction r as [|[k w] r IH]; simpl; [reflexivity|].
  destruct (String.eqb c k) eqn:E; simpl.
  - apply String.eqb_eq in E; subst k.
    destruct (String.eqb c' c) eqn:E'; [|reflexivity].
    apply String.eqb_eq in E'. contradiction.
  - rewrite IH. reflexivity.
Qed.

Lemma get_app c r r' :
  get c (r ++ r') = match get c r with Some v => Some v | None => get c r' end.
Proof.
  induction r as [|[k w] r IH]; simpl; [reflexivity|].
  destruct (String.eqb c k); auto.
Qed.

Lemma get_with_column_row_same c v r :
  get c (with_column_row c v r) = Some v.
Proof.
  unfold with_column_row.
  destruct (has_col c r) eqn:E.
  - apply get_set_same; assumption.
  - rewrite get_app. unfold has_col in E.
    destruct (get c r); [discriminate|].
    simpl. rewrite String.eqb_refl. reflexivity.
Qed.

Lemma get_with_column_row_other c c' v r :
  c' <> c -> get c' (with_column_row c v r) = get c' r.
Proof.
  intros Hne. unfold with_column_row.
  destruct (has_col c r).
  - apply get_set_other; assumption.
  - rewrite get_app. destruct (get c' r); [reflexivity|].
    simpl. destruct (String.eqb c' c) eqn:E; [|reflexivity].
    apply String.eqb_eq in E. contradiction.
Qed.

End RowFacts.

(** ** Sums and quotients *)

Section LiftFacts.
Import DataFrame.

Variable zero_divisor : exn.








(** Over no rows both sums are NULL, and so is the lift. *)
Lemma lift_no_rows new cur : lift zero_divisor new cur [] = Ok VNull.
Proof. reflexivity. Qed.

End LiftFacts.

(** ** The profit column *)

Section ProfitFacts.
Import DataFrame.

Variable zero_divisor : exn.











End ProfitFacts.

(** ** The lift statements *)

Section LiftQueries.
Import DataFrame.



Lemma query_result {A} (q : warehouse -> result A) s :
  query q s = (q (tick (wh s)), mkState (tick (wh s)) (page s)).
Proof. reflexivity. Qed.

End LiftQueries.

(** ** The arguments of the demand model *)

Section FeatureVector.
Import DataFrame.

Lemma mapM_ext {A B} (f g : A -> result B) l :
  (forall a, In a l -> f a = g a) -> mapM f l = mapM g l.
Proof.
  induction l as [|a l IH]; intros H; simpl; [reflexivity|].
  rewrite (H a) by (left; reflexivity).
  rewrite IH by (intros b Hb; apply H; right; exact Hb).
  reflexivity.
Qed.

Lemma mapM_col_cells r cs args :
  mapM (fun c => col c r) cs = Ok args ->
  map Some args = map (fun c => get c r) cs.
Proof.
  revert args.
  induction cs as [|c cs IH]; simpl; intros args H.
  - inversion H. reflexivity.
  - unfold col at 1 in H. destruct (get c r) as [v|]; [|discriminate].
    simpl in H.
    destruct (mapM (fun c0 => col c0 r) cs) as [vs|e]; [|discriminate].
    inversion H; subst. simpl. rewrite (IH vs eq_refl). reflexivity.
Qed.

Lemma mapM_length {A B} (f : A -> result B) l bs :
  mapM f l = Ok bs -> List.length bs = List.length l.
Proof.
  revert bs.
  induction l as [|a l IH]; simpl; intros bs H.
  - inversion H. reflexivity.
  - destruct (f a); [|discriminate]. simpl in H.
    destruct (mapM f l) as [bs'|]; [|discriminate].
    inversion H; subst. simpl. rewrite (IH bs' eq_refl). reflexivity.
Qed.

(** C4, as stated, fails: the model is called with 14 arguments, not 16. *)
Lemma udf_args_not_sixteen :
  exists args,
    udf_args Sample.monday = Ok args
    /\ List.length args = 14%nat
    /\ List.length args <> 16%nat.
Proof.
  eexists. split; [vm_compute; reflexivity|].
  split; [reflexivity | discriminate].
Qed.

(** C4, amended.  The argument sequence of the scoring function consists
    of exactly 14 positional values in a fixed order: [new_price] first,
    [base_price] second, then the 12 historical feature columns in the
    order of [feature_cols]; and the scored row depends on the model only
    through its value at that sequence. *)
Theorem udf_args_fourteen :
  forall r args,
    udf_args r = Ok args ->
    List.length args = 14%nat
    /\ nth_error args 0 = get "new_price" r
    /\ nth_error args 1 = get "base_price" r
    /\ map Some (skipn 2 args)
       = map (fun c => get c r)
           [ "price_hist_dow"; "price_year_dow"; "price_month_dow";
             "price_change_hist_dow"; "price_change_year_dow";
             "price_change_month_dow"; "price_hist_roll";
             "price_year_roll"; "price_month_roll";
             "price_change_hist_roll"; "price_change_year_roll";
             "price_change_month_roll" ]
    /\ forall udf,
        df_demand_row udf r = df_demand_row (fun _ => udf args) r.
Proof.
  intros r args H.
  pose proof (mapM_length _ _ _ H) as Hlen.
  pose proof (mapM_col_cells _ _ _ H) as Hcells.
  change (List.length feature_cols) with 14%nat in Hlen.
  split; [exact Hlen|].
  do 15 (destruct args as [|? args]; try discriminate Hlen).
  simpl in Hcells. inversion Hcells. subst.
  split; [reflexivity|]. split; [reflexivity|]. split.
  - simpl. repeat f_equal; assumption.
  - intros udf. unfold df_demand_row. rewrite H. reflexivity.
Qed.

Lemma udf_args_fourteen_witness :
  exists args,
    udf_args Sample.monday = Ok args /\ List.length args = 14%nat.
Proof.
  eexists. split; [vm_compute; reflexivity|].
  exact (proj1 (udf_args_fourteen Sample.monday _ eq_refl)).
Defined.

(** C9.  Two rows that hold the same cells in the feature columns give
    the same argument sequence, whatever else they hold and in whatever
    order their columns come. *)
Theorem udf_args_deterministic :
  forall r1 r2,
    (forall c, In c feature_cols -> get c r1 = get c r2) ->
    udf_args r1 = udf_args r2.
Proof.
  intros r1 r2 H. unfold udf_args.
  apply mapM_ext. intros c Hc. unfold col. rewrite (H c Hc). reflexivity.
Qed.

Lemma udf_args_deterministic_witness :
  Sample.monday <> Sample.monday_shuffled
  /\ udf_args Sample.monday = udf_args Sample.monday_shuffled.
Proof.
  split; [discriminate|].
  apply udf_args_deterministic.
  intros c Hc. simpl in Hc.
  repeat (destruct Hc as [<- | Hc]; [vm_compute; reflexivity|]).
  contradiction.
Defined.

End FeatureVector.

(** ** The join with the historical detail *)

Section Join.
Import DataFrame.

Lemma check_cols_app on df1 df2 :
  Sql.check_cols on (df1 ++ df2)
  = rbind (Sql.check_cols on df1) (fun _ => Sql.check_cols on df2).
Proof.
  induction df1 as [|r df1 IH]; simpl; [reflexivity|].
  destruct (Sql.first_missing on r); [reflexivity | exact IH].
Qed.

Lemma first_missing_has_cols on r :
  Sql.has_cols on r = true -> Sql.first_missing on r = None.
Proof.
  unfold Sql.has_cols, Sql.first_missing.
  induction on as [|c on IH]; simpl; [reflexivity|].
  intros H. apply andb_true_iff in H. destruct H as [Hc Hon].
  rewrite Hc. simpl. apply IH. exact Hon.
Qed.

(** A complete row does not change whether a frame passes the check. *)
Lemma check_cols_skip on before l after :
  Sql.has_cols on l = true ->
  Sql.check_cols on (before ++ l :: after)
  = Sql.check_cols on (before ++ after).
Proof.
  intros H. rewrite !check_cols_app. simpl.
  rewrite (first_missing_has_cols _ _ H). reflexivity.
Qed.

Lemma filter_none {A} (p : A -> bool) l :
  (forall a, In a l -> p a = false) -> filter p l = [].
Proof.
  induction l as [|a l IH]; intros H; simpl; [reflexivity|].
  rewrite (H a) by (left; reflexivity).
  apply IH. intros b Hb. apply H. right. exact Hb.
Qed.

(** A left row without a partner leaves the join as it is without it. *)
Lemma join_skip_unmatched on before l after right :
  Sql.has_cols on l = true ->
  (forall d, In d right -> Sql.keys_match on l d = false) ->
  Sql.join (before ++ l :: after) right on
  = Sql.join (before ++ after) right on.
Proof.
  intros Hl Hun. unfold Sql.join.
  rewrite (check_cols_skip _ _ _ _ Hl).
  rewrite !flat_map_app. simpl.
  rewrite (filter_none _ _ Hun). reflexivity.
Qed.

Lemma get_filter_key on c r :
  get c (filter (Sql.is_key on) r)
  = if existsb (String.eqb c) on then get c r else None.
Proof.
  induction r as [|[k v] r IH]; simpl.
  - destruct (existsb (String.eqb c) on); reflexivity.
  - unfold Sql.is_key at 1. simpl.
    destruct (String.eqb c k) eqn:E.
    + apply String.eqb_eq in E. subst k.
      destruct (existsb (String.eqb c) on) eqn:Ec.
      * simpl. rewrite String.eqb_refl. reflexivity.
      * rewrite IH. rewrite ?Ec. reflexivity.
    + destruct (existsb (String.eqb k) on); simpl;
        [rewrite E|]; exact IH.
Qed.

Lemma get_filter_own on other c r :
  get c (filter (Sql.own on other) r)
  = if (existsb (String.eqb c) on || has_col c other)%bool
    then None else get c r.
Proof.
  induction r as [|[k v] r IH]; simpl.
  - destruct (existsb (String.eqb c) on || has_col c other)%bool;
      reflexivity.
  - unfold Sql.own at 1, Sql.is_key. simpl.
    destruct (String.eqb c k) eqn:E.
    + apply String.eqb_eq in E. subst k.
      destruct (existsb (String.eqb c) on || has_col c other)%bool eqn:Ec.
      * apply orb_true_iff in Ec.
        assert (F : (negb (existsb (String.eqb c) on)
                     && negb (has_col c other))%bool = false).
        { destruct Ec as [-> | ->]; simpl;
            [reflexivity | apply andb_false_r]. }
        rewrite F, IH.
        destruct (existsb (String.eqb c) on || has_col c other)%bool eqn:Ec';
          [reflexivity|].
        apply orb_false_iff in Ec'. destruct Ec' as [E1 E2].
        destruct Ec; congruence.
      * apply orb_false_iff in Ec. destruct Ec as [E1 E2].
        rewrite E1, E2. simpl. rewrite String.eqb_refl. reflexivity.
    + destruct (negb (existsb (String.eqb k) on)
                && negb (has_col k other))%bool; simpl;
        [rewrite E|]; exact IH.
Qed.

Lemma existsb_eqb_not_in c on :
  ~ In c on -> existsb (String.eqb c) on = false.
Proof.
  induction on as [|k on IH]; simpl; [reflexivity|].
  intros H. destruct (String.eqb c k) eqn:E.
  - apply String.eqb_eq in E. subst k. exfalso. apply H. left. reflexivity.
  - apply IH. intros Hin. apply H. right. exact Hin.
Qed.

(** A column that only the right row has comes from the right row. *)
Lemma get_join_row_right on c l d :
  ~ In c on -> has_col c l = false ->
  get c (Sql.join_row on l d) = get c d.
Proof.
  intros Hc Hl. unfold Sql.join_row.
  rewrite !get_app, get_filter_key, !get_filter_own.
  rewrite (existsb_eqb_not_in _ _ Hc), Hl. simpl.
  unfold has_col in Hl.
  destruct (has_col c d); destruct (get c l); try discriminate;
    reflexivity.
Qed.

Lemma join_rows_from_pairs left right on joined :
  Sql.join left right on = Ok joined ->
  forall j, In j joined ->
    exists l d, In l left /\ In d right
                /\ Sql.keys_match on l d = true
                /\ j = Sql.join_row on l d.
Proof.
  unfold Sql.join. intros H j Hj.
  destruct (Sql.check_cols on left); [|discriminate].
  destruct (Sql.check_cols on right); [|discriminate].
  simpl in H. inversion H; subst joined. clear H.
  apply in_flat_map in Hj. destruct Hj as [l [Hl Hj]].
  apply in_map_iff in Hj. destruct Hj as [d [<- Hd]].
  apply filter_In in Hd. destruct Hd as [Hd Hm].
  exists l, d. auto.
Qed.

(** C5, as stated, fails: Tuesday's record has no detail row, and yet the
    scoring returns (one row instead of two), no exception of a class
    [JoinMismatch] is raised, and the page shows both metrics, computed
    from Monday alone. *)
Lemma unmatched_record_dropped :
  In Sample.tuesday [Sample.monday; Sample.tuesday]
  /\ (forall d, In d (pricing_detail Sample.warehouse_no_tuesday) ->
        Sql.keys_match join_cols Sample.tuesday d = false)
  /\ (exists row1,
        df_demand Sample.forty_per_unit [Sample.monday; Sample.tuesday]
          (pricing_detail Sample.warehouse_no_tuesday) = Ok [row1]
        /\ get "day_of_week" row1 = Some (VStr "Monday"))
  /\ ~ fails_with "JoinMismatch"
         (df_demand Sample.forty_per_unit [Sample.monday; Sample.tuesday]
            (pricing_detail Sample.warehouse_no_tuesday))
  /\ firstn 2 (page (run Sample.forty_per_unit Sample.looks
                       Sample.warehouse_no_tuesday))
     = [ Metric "Demand Lift" (VNum (200 # 10));
         Metric "Profit Lift" (VNum (200 # 10)) ].
Proof.
  split; [right; left; reflexivity|].
  split.
  { intros d [<- | []]. vm_compute. reflexivity. }
  split.
  { eexists. split; vm_compute; reflexivity. }
  split.
  { intros [msg H]. vm_compute in H. discriminate. }
  vm_compute. reflexivity.
Qed.

(** C5, amended.  A record that has the join columns and no matching
    historical-detail row raises no error: the inner join leaves it out,
    and the scoring proceeds exactly as it would without that record.
    Every row that is scored comes from a record and a detail row with
    equal keys, and takes the columns that only the detail table has
    (the baseline fields) from that detail row, never from a default. *)
Theorem unmatched_record_left_out :
  (forall udf before l after detail,
      Sql.has_cols join_cols l = true ->
      (forall d, In d detail -> Sql.keys_match join_cols l d = false) ->
      df_demand udf (before ++ l :: after) detail
      = df_demand udf (before ++ after) detail)
  /\ (forall set_prices detail joined,
         Sql.join set_prices detail join_cols = Ok joined ->
         forall j, In j joined ->
           exists l d,
             In l set_prices /\ In d detail
             /\ Sql.keys_match join_cols l d = true
             /\ j = Sql.join_row join_cols l d
             /\ forall c, ~ In c join_cols -> has_col c l = false ->
                          get c j = get c d).
Proof.
  split.
  - intros udf before l after detail Hl Hun. unfold df_demand.
    rewrite (join_skip_unmatched _ _ _ _ _ Hl Hun). reflexivity.
  - intros set_prices detail joined H j Hj.
    destruct (join_rows_from_pairs _ _ _ _ H j Hj)
      as [l [d [Hl [Hd [Hm ->]]]]].
    exists l, d. repeat split; auto.
    intros c Hc Hlc. apply get_join_row_right; assumption.
Qed.

Lemma unmatched_record_left_out_witness :
  df_demand Sample.forty_per_unit [Sample.monday; Sample.tuesday]
    [Sample.monday_detail]
  = df_demand Sample.forty_per_unit [Sample.monday] [Sample.monday_detail].
Proof.
  refine (proj1 unmatched_record_left_out Sample.forty_per_unit
            [Sample.monday] Sample.tuesday [] [Sample.monday_detail]
            eq_refl _).
  intros d [<- | []]. vm_compute. reflexivity.
Defined.

End Join.

(** ** The descending order of the history *)

Section Order.
Import DataFrame.

Lemma string_leb_iff s t :
  String.leb s t = true <-> s = t \/ String_as_OT.lt s t.
Proof.
  unfold String.leb.
  pose proof (String_as_OT.cmp_eq s t) as He.
  pose proof (String_as_OT.cmp_lt s t) as Hl.
  pose proof (String_as_OT.cmp_antisym s t) as Ha.
  pose proof (String_as_OT.cmp_lt t s) as Hl'.
  unfold String_as_OT.cmp in *.
  destruct (String.compare s t) eqn:E.
  - split; [intros _; left; apply He; reflexivity | reflexivity].
  - split; [intros _; right; apply Hl; reflexivity | reflexivity].
  - split; [discriminate|].
    intros [Heq | Hlt].
    + apply He in Heq. discriminate.
    + apply Hl in Hlt. discriminate.
Qed.

Lemma string_leb_trans s t u :
  String.leb s t = true -> String.leb t u = true -> String.leb s u = true.
Proof.
  rewrite !string_leb_iff.
  intros [-> | H1] [-> | H2]; auto.
  right. eapply String_as_OT.lt_trans; eassumption.
Qed.

Lemma value_leb_total a b :
  Sql.value_leb a b = true \/ Sql.value_leb b a = true.
Proof.
  destruct a as [| p | s | t], b as [| q | s' | t']; simpl; auto.
  - destruct (Qlt_le_dec q p) as [H | H].
    + right. apply Qle_bool_iff. apply Qlt_le_weak. exact H.
    + left. apply Qle_bool_iff. exact H.
  - apply String.leb_total.
  - rewrite !Z.leb_le. lia.
Qed.

Lemma value_leb_trans a b c :
  Sql.value_leb a b = true -> Sql.value_leb b c = true ->
  Sql.value_leb a c = true.
Proof.
  destruct a as [| p | s | t], b as [| q | s' | t'], c as [| r | s'' | t''];
    simpl; try discriminate; try reflexivity.
  - rewrite !Qle_bool_iff. apply Qle_trans.
  - apply string_leb_trans.
  - rewrite !Z.leb_le. lia.
Qed.

Lemma desc_total c a b : Sql.desc c a b = true \/ Sql.desc c b a = true.
Proof. unfold Sql.desc. apply value_leb_total. Qed.

Lemma newer_first_trans : Transitive newer_first.
Proof.
  intros a b c Hab Hbc. unfold newer_first, Sql.desc in *.
  eapply value_leb_trans; eassumption.
Qed.

(** Between two rows that carry a time, [newer_first] compares the
    times. *)
Lemma newer_first_times a b ta tb :
  newer_first a b ->
  get "timestamp" a = Some (VTime ta) ->
  get "timestamp" b = Some (VTime tb) ->
  (tb <= ta)%Z.
Proof.
  unfold newer_first, Sql.desc, Sql.cell. intros H Ha Hb.
  rewrite Ha, Hb in H. simpl in H. apply Z.leb_le. exact H.
Qed.

Lemma insert_desc_perm c r df :
  Permutation (r :: df) (Sql.insert_desc c r df).
Proof.
  induction df as [|r' df IH]; simpl; [reflexivity|].
  destruct (Sql.desc c r r'); [reflexivity|].
  rewrite perm_swap. apply perm_skip. exact IH.
Qed.

Lemma order_by_desc_perm c df :
  Permutation df (Sql.order_by_desc c df).
Proof.
  induction df as [|r df IH]; simpl; [reflexivity|].
  rewrite <- insert_desc_perm. apply perm_skip. exact IH.
Qed.

Lemma insert_desc_sorted c r df :
  Sorted (fun a b => Sql.desc c a b = true) df ->
  Sorted (fun a b => Sql.desc c a b = true) (Sql.insert_desc c r df).
Proof.
  induction df as [|r' df IH]; intros H; simpl.
  - constructor; constructor.
  - destruct (Sql.desc c r r') eqn:E.
    + constructor; [exact H|]. constructor. exact E.
    + inversion H as [|? ? Hs Hh]; subst.
      constructor; [apply IH; exact Hs|].
      destruct df as [|r'' df]; simpl.
      * constructor. destruct (desc_total c r r') as [H1 | H1];
          [congruence | exact H1].
      * destruct (Sql.desc c r r'').
        -- constructor. destruct (desc_total c r r') as [H1 | H1];
             [congruence | exact H1].
        -- inversion Hh; subst. constructor. assumption.
Qed.

Lemma order_by_desc_sorted c df :
  Sorted (fun a b => Sql.desc c a b = true) (Sql.order_by_desc c df).
Proof.
  induction df as [|r df IH]; simpl; [constructor|].
  apply insert_desc_sorted. exact IH.
Qed.

Lemma history_newer_first w : StronglySorted newer_first (history_df w).
Proof.
  apply Sorted_StronglySorted; [exact newer_first_trans|].
  apply order_by_desc_sorted.
Qed.

Lemma history_perm w : Permutation (pricing_final w) (history_df w).
Proof. apply order_by_desc_perm. Qed.

End Order.

(** ** Commit and history *)

Section Commit.
Import DataFrame.

Lemma save_as_table_ok set_prices s s' :
  save_as_table set_prices s = (Ok tt, s') ->
  wh s' = append_final (stamped set_prices (tick (wh s))) (tick (wh s))
  /\ page s' = page s.
Proof.
  unfold save_as_table. intros H.
  destruct (write_fault (tick (wh s))); [discriminate|].
  inversion H. split; reflexivity.
Qed.

Lemma save_as_table_raise set_prices s e s' :
  save_as_table set_prices s = (Raise e, s') ->
  page s' = page s /\ pricing_final (wh s') = pricing_final (wh s).
Proof.
  unfold save_as_table. intros H.
  destruct (write_fault (tick (wh s))); [|discriminate].
  inversion H. split; reflexivity.
Qed.

(** C7.  After a successful append, every row of the committed frame is
    found in the history with each of its columns unchanged and with a
    timestamp that is not before the moment the append began, and the
    history is in descending order of timestamp (for any two rows that
    carry a time, the one shown first has the later or equal time). *)
Theorem commit_history_roundtrip :
  forall set_prices s s',
    save_as_table set_prices s = (Ok tt, s') ->
    (forall r, In r set_prices ->
       exists t ts,
         In t (history_df (wh s'))
         /\ (forall c, c <> "timestamp" -> get c t = get c r)
         /\ get "timestamp" t = Some (VTime ts)
         /\ (now (wh s) <= ts)%Z)
    /\ StronglySorted newer_first (history_df (wh s'))
    /\ (forall a b ta tb,
          newer_first a b ->
          get "timestamp" a = Some (VTime ta) ->
          get "timestamp" b = Some (VTime tb) ->
          (tb <= ta)%Z).
Proof.
  intros set_prices s s' H.
  destruct (save_as_table_ok _ _ _ H) as [Hwh _].
  split; [|split].
  - intros r Hr.
    exists (with_column_row "timestamp" (VTime (now (tick (wh s)))) r),
           (now (tick (wh s))).
    split; [|split; [|split]].
    + apply (Permutation_in _ (history_perm (wh s'))).
      rewrite Hwh. simpl. apply in_or_app. right.
      unfold stamped. apply in_map. exact Hr.
    + intros c Hc. apply get_with_column_row_other. exact Hc.
    + apply get_with_column_row_same.
    + simpl. lia.
  - apply history_newer_first.
  - exact newer_first_times.
Qed.

Lemma commit_history_roundtrip_witness :
  exists t ts,
    In t (history_df
            (append_final
               (stamped [Sample.monday; Sample.tuesday]
                  (tick Sample.warehouse0))
               (tick Sample.warehouse0)))
    /\ (forall c, c <> "timestamp" -> get c t = get c Sample.tuesday)
    /\ get "timestamp" t = Some (VTime ts)
    /\ (1000 <= ts)%Z.
Proof.
  exact (proj1 (commit_history_roundtrip [Sample.monday; Sample.tuesday]
                  (mkState Sample.warehouse0 []) _ eq_refl)
           Sample.tuesday (or_intror (or_introl eq_refl))).
Defined.

End Commit.

(** ** The blocks of the script *)

Section Blocks.
Import DataFrame.

Variable udf : list value -> result value.

Lemma bind_inv {A B} (m : M A) (k : A -> M B) s r s' :
  bind m k s = (r, s') ->
  (exists a s1, m s = (Ok a, s1) /\ k a s1 = (r, s'))
  \/ (exists e, m s = (Raise e, s') /\ r = Raise e).
Proof.
  unfold bind. destruct (m s) as [[a | e] s1]; intros H.
  - left. exists a, s1. auto.
  - right. exists e. inversion H. auto.
Qed.

Lemma tables_tick w : tables (tick w) = tables w.
Proof. reflexivity. Qed.

Lemma query_inv {A} (q : warehouse -> result A) s r s' :
  query q s = (r, s') ->
  r = q (tick (wh s)) /\ page s' = page s /\ wh s' = tick (wh s).
Proof. unfold query. intros H. inversion H. auto. Qed.

Lemma render_inv el s r s' :
  render el s = (r, s') ->
  r = Ok tt /\ page s' = page s ++ [el] /\ wh s' = wh s.
Proof. unfold render. intros H. inversion H. auto. Qed.

(** The first tab renders nothing that counts and writes nothing; what it
    returns is the edited frame of some scope of the loaded table. *)
Lemma price_management_inv op s r s' :
  price_management op s = (r, s') ->
  page s' = page s
  /\ tables (wh s') = tables (wh s)
  /\ (now (wh s) <= now (wh s'))%Z
  /\ forall set_prices, r = Ok set_prices ->
       exists df brand item,
         load_df (tick (wh s)) = Ok df
         /\ set_prices
            = Streamlit.data_editor (filter_brand_item brand item df)
                (edits op).
Proof.
  unfold price_management. intros H.
  apply bind_inv in H.
  destruct H as [[df [s1 [H1 H]]] | [e [H1 ->]]];
    apply query_inv in H1; destruct H1 as [E1 [P1 W1]];
    [|rewrite P1, W1; repeat split; try discriminate; simpl; lia].
  apply bind_inv in H.
  destruct H as [[brands [s2 [H2 H]]] | [e [H2 ->]]];
    apply query_inv in H2; destruct H2 as [E2 [P2 W2]];
    [|rewrite P2, W2, P1, W1; repeat split; try discriminate; simpl; lia].
  apply bind_inv in H.
  destruct H as [[items [s3 [H3 H]]] | [e [H3 ->]]];
    apply query_inv in H3; destruct H3 as [E3 [P3 W3]];
    [|rewrite P3, W3, P2, W2, P1, W1; repeat split; try discriminate;
      simpl; lia].
  apply bind_inv in H.
  destruct H as [[shown [s4 [H4 H]]] | [e [H4 ->]]];
    apply query_inv in H4; destruct H4 as [E4 [P4 W4]];
    [|discriminate E4].
  unfold ret in H. inversion H. subst r s'. clear H.
  rewrite P4, W4, P3, W3, P2, W2, P1, W1.
  repeat split; try (simpl; lia).
  intros set_prices Hsp. inversion Hsp. subst set_prices.
  inversion E4. subst shown.
  eexists df, _, _. split; [symmetry; exact E1 | reflexivity].
Qed.

Lemma df_demand_of_lift set_prices w dl :
  demand_lift_query udf set_prices w = Ok dl ->
  exists rows, df_demand udf set_prices (pricing_detail w) = Ok rows.
Proof.
  unfold demand_lift_query.
  destruct (df_demand udf set_prices (pricing_detail w)) as [rows|];
    [|discriminate].
  intros _. exists rows. reflexivity.
Qed.

(** The evaluation renders nothing; it returns both lifts or raises. *)
Lemma evaluate_inv set_prices s r s' :
  evaluate udf set_prices s = (r, s') ->
  page s' = page s
  /\ tables (wh s') = tables (wh s)
  /\ forall lifts, r = Ok lifts ->
       demand_lift_query udf set_prices (wh s) = Ok (fst lifts)
       /\ profit_lift_query udf set_prices (wh s) = Ok (snd lifts).
Proof.
  unfold evaluate. intros H.
  apply bind_inv in H.
  destruct H as [[dl [s1 [H1 H]]] | [e [H1 ->]]];
    apply query_inv in H1; destruct H1 as [E1 [P1 W1]];
    [|rewrite P1, W1; repeat split; discriminate].
  apply bind_inv in H.
  destruct H as [[pl [s2 [H2 H]]] | [e [H2 ->]]];
    apply query_inv in H2; destruct H2 as [E2 [P2 W2]];
    [|rewrite P2, W2, P1, W1; repeat split; discriminate].
  unfold ret in H. inversion H. subst r s'. clear H.
  rewrite P2, W2, P1, W1. repeat split.
  - inversion H. subst lifts. simpl. symmetry. exact E1.
  - inversion H. subst lifts. simpl. symmetry. rewrite W1 in E2. exact E2.
Qed.

Lemma tables_detail w1 w2 :
  tables w1 = tables w2 -> pricing_detail w1 = pricing_detail w2.
Proof. unfold tables. intros H. inversion H. reflexivity. Qed.

Lemma tables_final w1 w2 :
  tables w1 = tables w2 -> pricing_final w1 = pricing_final w2.
Proof. unfold tables. intros H. inversion H. reflexivity. Qed.

Lemma tables_fault w1 w2 :
  tables w1 = tables w2 -> write_fault w1 = write_fault w2.
Proof. unfold tables. intros H. inversion H. reflexivity. Qed.

Lemma tables_to_pandas w1 w2 :
  tables w1 = tables w2 -> to_pandas_fault w1 = to_pandas_fault w2.
Proof. unfold tables. intros H. inversion H. reflexivity. Qed.

Lemma tables_history w1 w2 :
  tables w1 = tables w2 -> history_fault w1 = history_fault w2.
Proof. unfold tables. intros H. inversion H. reflexivity. Qed.

Lemma tables_zero_divisor w1 w2 :
  tables w1 = tables w2 -> zero_divisor w1 = zero_divisor w2.
Proof. unfold tables. intros H. inversion H. reflexivity. Qed.

Lemma demand_lift_query_tables set_prices w1 w2 :
  tables w1 = tables w2 ->
  demand_lift_query udf set_prices w1 = demand_lift_query udf set_prices w2.
Proof.
  intros H. unfold demand_lift_query.
  rewrite (tables_detail _ _ H), (tables_zero_divisor _ _ H). reflexivity.
Qed.

Lemma profit_lift_query_tables set_prices w1 w2 :
  tables w1 = tables w2 ->
  profit_lift_query udf set_prices w1 = profit_lift_query udf set_prices w2.
Proof.
  intros H. unfold profit_lift_query.
  rewrite (tables_detail _ _ H), (tables_zero_divisor _ _ H). reflexivity.
Qed.

(** The second tab raises before it has rendered anything, or renders the
    two metrics and then fails to fetch the frame of the chart, or
    renders the metrics and the chart. *)
Lemma demand_forecast_inv set_prices s r s' :
  demand_forecast udf set_prices s = (r, s') ->
  tables (wh s') = tables (wh s)
  /\ ((exists e, r = Raise e /\ page s' = page s)
      \/ (exists dl pl,
             demand_lift_query udf set_prices (wh s) = Ok dl
             /\ profit_lift_query udf set_prices (wh s) = Ok pl
             /\ ((exists e,
                     r = Raise e
                     /\ to_pandas_fault (wh s) = Some e
                     /\ page s'
                        = page s ++ [ Metric "Demand Lift" dl;
                                      Metric "Profit Lift" pl ])
                 \/ (exists rows,
                        r = Ok tt
                        /\ to_pandas_fault (wh s) = None
                        /\ df_demand udf set_prices (pricing_detail (wh s))
                           = Ok rows
                        /\ page s'
                           = page s ++ [ Metric "Demand Lift" dl;
                                         Metric "Profit Lift" pl;
                                         Chart rows ])))).
Proof.
  unfold demand_forecast. intros H.
  apply bind_inv in H.
  destruct H as [[lifts [s1 [H1 H]]] | [e [H1 ->]]];
    apply evaluate_inv in H1; destruct H1 as [P1 [T1 L1]];
    [|split; [exact T1 | left; exists e; auto]].
  destruct (L1 lifts eq_refl) as [Hdl Hpl].
  destruct (df_demand_of_lift _ _ _ Hdl) as [rows Hrows].
  apply bind_inv in H.
  destruct H as [[[] [s2 [H2 H]]] | [e [H2 _]]];
    apply render_inv in H2; destruct H2 as [E2 [P2 W2]];
    [|discriminate E2].
  apply bind_inv in H.
  destruct H as [[[] [s3 [H3 H]]] | [e [H3 _]]];
    apply render_inv in H3; destruct H3 as [E3 [P3 W3]];
    [|discriminate E3].
  assert (T3 : tables (wh s3) = tables (wh s))
    by (rewrite W3, W2; exact T1).
  assert (P3' : page s3 = page s ++ [ Metric "Demand Lift" (fst lifts);
                                      Metric "Profit Lift" (snd lifts) ])
    by (rewrite P3, P2, P1, <- app_assoc; reflexivity).
  apply bind_inv in H.
  destruct H as [[rows' [s4 [H4 H]]] | [e [H4 ->]]];
    apply query_inv in H4; destruct H4 as [E4 [P4 W4]];
    unfold to_pandas in E4;
    change (to_pandas_fault (tick (wh s3))) with (to_pandas_fault (wh s3))
      in E4;
    change (pricing_detail (tick (wh s3))) with (pricing_detail (wh s3))
      in E4;
    rewrite (tables_to_pandas _ _ T3), (tables_detail _ _ T3), Hrows in E4.
  - apply render_inv in H. destruct H as [-> [P5 W5]].
    split; [rewrite W5, W4, tables_tick; exact T3|].
    right. exists (fst lifts), (snd lifts).
    split; [exact Hdl|]. split; [exact Hpl|]. right.
    destruct (to_pandas_fault (wh s)) eqn:F; simpl in E4; [discriminate|].
    inversion E4. subst rows'.
    exists rows. repeat split; try assumption.
    rewrite P5, P4, P3', <- app_assoc. reflexivity.
  - split; [rewrite W4, tables_tick; exact T3|].
    right. exists (fst lifts), (snd lifts).
    split; [exact Hdl|]. split; [exact Hpl|]. left.
    destruct (to_pandas_fault (wh s)) eqn:F; simpl in E4; [|discriminate].
    inversion E4. subst e0.
    exists e. repeat split. rewrite P4. exact P3'.
Qed.

(** The button either raises without a success message, or appends the
    stamped frame and renders the success message. *)
Lemma update_prices_inv set_prices s r s' :
  update_prices set_prices s = (r, s') ->
  (exists e, r = Raise e /\ write_fault (wh s) = Some e
             /\ page s' = page s
             /\ tables (wh s') = tables (wh s))
  \/ (r = Ok tt /\ write_fault (wh s) = None
      /\ page s' = page s ++ [Success "Prices updated successfully!"]
      /\ wh s'
         = append_final (stamped set_prices (tick (wh s))) (tick (wh s))).
Proof.
  unfold update_prices. intros H.
  apply bind_inv in H.
  destruct H as [[[] [s1 [H1 H]]] | [e [H1 ->]]].
  - apply render_inv in H. destruct H as [-> [P2 W2]].
    right. unfold save_as_table in H1.
    change (write_fault (tick (wh s))) with (write_fault (wh s)) in H1.
    destruct (write_fault (wh s)) eqn:F; [discriminate|].
    inversion H1. subst s1. clear H1.
    rewrite P2, W2. simpl. auto.
  - left. exists e. unfold save_as_table in H1.
    change (write_fault (tick (wh s))) with (write_fault (wh s)) in H1.
    destruct (write_fault (wh s)) eqn:F; [|discriminate].
    inversion H1. subst. simpl. unfold tables. simpl. rewrite F. auto.
Qed.

(** The expander either fails to read the history, or renders it. *)
Lemma view_history_inv s r s' :
  view_history s = (r, s') ->
  tables (wh s') = tables (wh s)
  /\ ((exists e, r = Raise e /\ history_fault (wh s) = Some e
                 /\ page s' = page s)
      \/ (r = Ok tt /\ history_fault (wh s) = None
          /\ page s' = page s ++ [Table (history_df (wh s))])).
Proof.
  unfold view_history. intros H.
  apply bind_inv in H.
  destruct H as [[h [s1 [H1 H]]] | [e [H1 ->]]];
    apply query_inv in H1; destruct H1 as [E1 [P1 W1]];
    unfold read_history in E1;
    change (history_fault (tick (wh s))) with (history_fault (wh s)) in E1;
    destruct (history_fault (wh s)) as [e'|] eqn:F; simpl in E1;
    try discriminate E1.
  - apply render_inv in H. destruct H as [-> [P2 W2]].
    inversion E1. subst h.
    split; [rewrite W2, W1; apply tables_tick|].
    right. rewrite P2, P1. auto.
  - inversion E1. subst e'.
    split; [rewrite W1; apply tables_tick|].
    left. exists e. auto.
Qed.

(** The clock does not run backwards during the second tab. *)
Lemma demand_forecast_now set_prices s r s' :
  demand_forecast udf set_prices s = (r, s') ->
  (now (wh s) <= now (wh s'))%Z.
Proof.
  unfold demand_forecast, evaluate, ret. intros H.
  repeat match goal with
         | H : bind _ _ _ = _ |- _ =>
             apply bind_inv in H;
             destruct H as [[? [? [? H]]] | [? [? ?]]]
         | H : query _ _ = _ |- _ =>
             apply query_inv in H; destruct H as [? [? ?]]
         | H : render _ _ = _ |- _ =>
             apply render_inv in H; destruct H as [? [? ?]]
         | H : (_, _) = (_, _) |- _ => inversion H; subst; clear H
         end;
    repeat match goal with
           | H : wh _ = _ |- _ => rewrite H; clear H
           end;
    simpl; lia.
Qed.


End Blocks.

(** ** Whole runs *)

Section Runs.
Import DataFrame.

Variable udf : list value -> result value.

(** The ways a run can end. *)
Lemma run_cases op w :
  (exists e,
      fst (body udf op (mkState w [])) = Raise e
      /\ page (run udf op w) = handler e
      /\ pricing_final (wh (run udf op w)) = pricing_final w)
  \/ (exists set_prices s1 dl pl,
         price_management op (mkState w []) = (Ok set_prices, s1)
         /\ demand_lift_query udf set_prices w = Ok dl
         /\ profit_lift_query udf set_prices w = Ok pl
         /\ ((exists e,
                 to_pandas_fault w = Some e
                 /\ fst (body udf op (mkState w [])) = Raise e
                 /\ page (run udf op w)
                    = [ Metric "Demand Lift" dl; Metric "Profit Lift" pl ]
                      ++ handler e
                 /\ pricing_final (wh (run udf op w)) = pricing_final w)
             \/ (exists rows,
                    df_demand udf set_prices (pricing_detail w) = Ok rows
                    /\ ((update_clicked op = false
                         /\ pricing_final (wh (run udf op w))
                            = pricing_final w
                         /\ ((exists e,
                                 history_fault w = Some e
                                 /\ fst (body udf op (mkState w []))
                                    = Raise e
                                 /\ page (run udf op w)
                                    = [ Metric "Demand Lift" dl;
                                        Metric "Profit Lift" pl;
                                        Chart rows ] ++ handler e)
                             \/ (fst (body udf op (mkState w [])) = Ok tt
                                 /\ page (run udf op w)
                                    = [ Metric "Demand Lift" dl;
                                        Metric "Profit Lift" pl;
                                        Chart rows;
                                        Table
                                          (history_df
                                             (wh (run udf op w))) ])))
                        \/ (update_clicked op = true
                            /\ exists e,
                                write_fault w = Some e
                                /\ fst (body udf op (mkState w []))
                                   = Raise e
                                /\ page (run udf op w)
                                   = [ Metric "Demand Lift" dl;
                                       Metric "Profit Lift" pl;
                                       Chart rows ] ++ handler e
                                /\ pricing_final (wh (run udf op w))
                                   = pricing_final w)
                        \/ (update_clicked op = true
                            /\ write_fault w = None
                            /\ exists w',
                                (now w <= now w')%Z
                                /\ pricing_final (wh (run udf op w))
                                   = pricing_final w
                                     ++ stamped set_prices w'
                                /\ ((exists e,
                                        history_fault w = Some e
                                        /\ fst (body udf op (mkState w []))
                                           = Raise e
                                        /\ page (run udf op w)
                                           = [ Metric "Demand Lift" dl;
                                               Metric "Profit Lift" pl;
                                               Chart rows;
                                               Success
                                                 "Prices updated successfully!" ]
                                             ++ handler e)
                                    \/ (fst (body udf op (mkState w []))
                                        = Ok tt
                                        /\ page (run udf op w)
                                           = [ Metric "Demand Lift" dl;
                                               Metric "Profit Lift" pl;
                                               Chart rows;
                                               Success
                                                 "Prices updated successfully!";
                                               Table
                                                 (history_df
                                                    (wh (run udf op w))) ]))))))).
Proof.
  unfold run.
  destruct (body udf op (mkState w [])) as [r s] eqn:B.
  unfold body in B.
  apply bind_inv in B.
  destruct B as [[sp [s1 [H1 B]]] | [e [H1 ->]]];
    pose proof (price_management_inv _ _ _ _ H1) as [P1 [T1 [N1 _]]];
    simpl in P1, T1, N1.
  2:{ left. exists e. simpl. rewrite P1. simpl.
      rewrite (tables_final _ _ T1). auto. }
  apply bind_inv in B.
  destruct B as [[[] [s2 [H2 B]]] | [e [H2 ->]]];
    pose proof (demand_forecast_now udf _ _ _ _ H2) as N2;
    destruct (demand_forecast_inv udf _ _ _ _ H2) as [T2 D2].
  2:{ destruct D2 as [[e' [E' P2]] | [dl [pl [Hdl [Hpl D2]]]]].
      - left. exists e. simpl. rewrite P2, P1. simpl.
        rewrite (tables_final _ _ T2), (tables_final _ _ T1). auto.
      - destruct D2 as [[e' [E' [F P2]]] | [rows [E' _]]];
          [|discriminate E'].
        inversion E'. subst e'.
        rewrite (demand_lift_query_tables udf _ _ _ T1) in Hdl.
        rewrite (profit_lift_query_tables udf _ _ _ T1) in Hpl.
        rewrite (tables_to_pandas _ _ T1) in F.
        right. exists sp, s1, dl, pl.
        split; [exact H1|]. split; [exact Hdl|]. split; [exact Hpl|].
        left. exists e. simpl. rewrite P2, P1. simpl.
        rewrite (tables_final _ _ T2), (tables_final _ _ T1). auto. }
  destruct D2 as [[e' [E' _]] | [dl [pl [Hdl [Hpl D2]]]]];
    [discriminate E'|].
  destruct D2 as [[e' [E' _]] | [rows [_ [_ [Hrows P2]]]]];
    [discriminate E'|].
  rewrite (demand_lift_query_tables udf _ _ _ T1) in Hdl.
  rewrite (profit_lift_query_tables udf _ _ _ T1) in Hpl.
  rewrite (tables_detail _ _ T1) in Hrows.
  rewrite P1 in P2. simpl in P2.
  right. exists sp, s1, dl, pl.
  split; [exact H1|]. split; [exact Hdl|]. split; [exact Hpl|].
  right. exists rows. split; [exact Hrows|].
  apply bind_inv in B.
  destruct (update_clicked op) eqn:C.
  - destruct B as [[[] [s3 [H3 B]]] | [e [H3 ->]]];
      apply update_prices_inv in H3.
    + destruct H3 as [[e [E3 _]] | [_ [F3 [P3 W3]]]];
        [discriminate E3|].
      rewrite (tables_fault _ _ T2), (tables_fault _ _ T1) in F3.
      right. right. split; [reflexivity|]. split; [exact F3|].
      exists (tick (wh s2)).
      assert (Hfin : forall s4, tables (wh s4) = tables (wh s3) ->
                pricing_final (wh s4)
                = pricing_final w ++ stamped sp (tick (wh s2))).
      { intros s4 T4. rewrite (tables_final _ _ T4), W3. simpl.
        rewrite (tables_final _ _ T2), (tables_final _ _ T1).
        reflexivity. }
      assert (Hh : history_fault (wh s3) = history_fault w).
      { rewrite W3. simpl.
        rewrite (tables_history _ _ T2), (tables_history _ _ T1).
        reflexivity. }
      split; [simpl; lia|].
      destruct (view_history_inv _ _ _ B) as [T4 V].
      pose proof (Hfin s T4) as Hf.
      destruct V as [[e [-> [F4 P4]]] | [-> [F4 P4]]]; simpl.
      * split; [exact Hf|]. left. exists e. rewrite Hh in F4.
        split; [exact F4|]. split; [reflexivity|].
        rewrite P4, P3, P2. reflexivity.
      * split; [exact Hf|]. right. split; [reflexivity|].
        rewrite P4, P3, P2. simpl. unfold history_df.
        rewrite (tables_final _ _ T4). reflexivity.
    + destruct H3 as [[e' [E3 [F3 [P3 T3]]]] | [E3 _]];
        [|discriminate E3].
      inversion E3. subst e'.
      rewrite (tables_fault _ _ T2), (tables_fault _ _ T1) in F3.
      right. left. split; [reflexivity|]. exists e. simpl.
      split; [exact F3|]. split; [reflexivity|]. split.
      * rewrite P3, P2. reflexivity.
      * rewrite (tables_final _ _ T3), (tables_final _ _ T2),
          (tables_final _ _ T1). reflexivity.
  - destruct B as [[[] [s3 [H3 B]]] | [e [H3 _]]];
      unfold ret in H3; [|discriminate H3].
    inversion H3. subst s3.
    destruct (view_history_inv _ _ _ B) as [T4 V].
    left. split; [reflexivity|].
    assert (Hfin : pricing_final (wh s) = pricing_final w).
    { rewrite (tables_final _ _ T4), (tables_final _ _ T2),
        (tables_final _ _ T1). reflexivity. }
    destruct V as [[e [-> [F4 P4]]] | [-> [F4 P4]]]; simpl.
    + split; [exact Hfin|]. left. exists e.
      rewrite (tables_history _ _ T2), (tables_history _ _ T1) in F4.
      split; [exact F4|]. split; [reflexivity|].
      rewrite P4, P2. reflexivity.
    + split; [exact Hfin|]. right. split; [reflexivity|].
      rewrite P4, P2. simpl. unfold history_df.
      rewrite (tables_final _ _ T4). reflexivity.
Qed.

(** What a run leaves in the log. *)
Lemma run_final op w :
  pricing_final (wh (run udf op w)) = pricing_final w
  \/ (update_clicked op = true
      /\ exists set_prices s1 w',
          price_management op (mkState w []) = (Ok set_prices, s1)
          /\ (now w <= now w')%Z
          /\ pricing_final (wh (run udf op w))
             = pricing_final w ++ stamped set_prices w').
Proof.
  destruct (run_cases op w)
    as [[e [_ [_ F]]] | [sp [s1 [dl [pl [H1 [_ [_ H]]]]]]]];
    [left; exact F|].
  destruct H as [[e [_ [_ [_ F]]]] | [rows [_ H]]]; [left; exact F|].
  destruct H as [[_ [F _]] | [[_ [e [_ [_ [_ F]]]]] | [C [_ [w' [N [F _]]]]]]].
  - left. exact F.
  - left. exact F.
  - right. split; [exact C|]. exists sp, s1, w'. auto.
Qed.

(** A page with the success message comes from a completed append. *)
Lemma run_success op w :
  In (Success "Prices updated successfully!") (page (run udf op w)) ->
  write_fault w = None
  /\ exists set_prices s1 w',
      price_management op (mkState w []) = (Ok set_prices, s1)
      /\ (now w <= now w')%Z
      /\ pricing_final (wh (run udf op w))
         = pricing_final w ++ stamped set_prices w'.
Proof.
  intros Hin.
  destruct (run_cases op w)
    as [[e' [_ [P _]]] | [sp [s1 [dl [pl [H1 [_ [_ H]]]]]]]].
  { rewrite P in Hin. simpl in Hin.
    destruct Hin as [H | [H | []]]; discriminate. }
  destruct H as [[e' [_ [_ [P _]]]] | [rows [_ H]]].
  { rewrite P in Hin. simpl in Hin.
    repeat (destruct Hin as [Hin | Hin]; [discriminate|]).
    contradiction. }
  destruct H as [[_ [_ H]] | [[_ [e' [_ [_ [P _]]]]] | [_ [Wf [w' [N [F _]]]]]]].
  - destruct H as [[e' [_ [_ P]]] | [_ P]]; rewrite P in Hin;
      simpl in Hin;
      repeat (destruct Hin as [Hin | Hin]; [discriminate|]);
      contradiction.
  - rewrite P in Hin. simpl in Hin.
    repeat (destruct Hin as [Hin | Hin]; [discriminate|]).
    contradiction.
  - split; [exact Wf|]. exists sp, s1, w'. auto.
Qed.

(** A run that raises nothing ends with the history table of the log it
    leaves. *)
Lemma run_ok_page op w :
  fst (body udf op (mkState w [])) = Ok tt ->
  exists shown,
    page (run udf op w) = shown ++ [Table (history_df (wh (run udf op w)))].
Proof.
  intros Hok.
  destruct (run_cases op w)
    as [[e [B _]] | [sp [s1 [dl [pl [_ [_ [_ H]]]]]]]].
  { rewrite B in Hok. discriminate. }
  destruct H as [[e [_ [B _]]] | [rows [_ H]]].
  { rewrite B in Hok. discriminate. }
  destruct H as [[_ [_ H]] | [[_ [e [_ [B _]]]] | [_ [_ [w' [_ [_ H]]]]]]].
  - destruct H as [[e [_ [B _]]] | [_ P]];
      [rewrite B in Hok; discriminate|].
    exists [ Metric "Demand Lift" dl; Metric "Profit Lift" pl; Chart rows ].
    exact P.
  - rewrite B in Hok. discriminate.
  - destruct H as [[e [_ [B _]]] | [_ P]];
      [rewrite B in Hok; discriminate|].
    exists [ Metric "Demand Lift" dl; Metric "Profit Lift" pl; Chart rows;
             Success "Prices updated successfully!" ].
    exact P.
Qed.


End Runs.

Section Propagation.



End Propagation.

(** ** A zero baseline *)

Section ZeroBaseline.
Import DataFrame.





End ZeroBaseline.

(** ** The comment column *)

Section Comment.
Import DataFrame.

Lemma with_column_const c v df :
  with_column c (fun _ => Ok v) df = Ok (map (with_column_row c v) df).
Proof.
  unfold with_column.
  induction df as [|r df IH]; [reflexivity|].
  simpl in *. rewrite IH. reflexivity.
Qed.

Lemma load_df_comment w df :
  load_df w = Ok df ->
  Forall (fun r => get "comment" r = Some (VStr "")) df.
Proof.
  unfold load_df. rewrite with_column_const. intros H. inversion H.
  apply Forall_forall. intros r Hr.
  apply in_map_iff in Hr. destruct Hr as [r0 [<- _]].
  apply get_with_column_row_same.
Qed.

Lemma Forall_filter {A} (P : A -> Prop) p l :
  Forall P l -> Forall P (filter p l).
Proof.
  rewrite !Forall_forall. intros H a Ha.
  apply filter_In in Ha. apply H. tauto.
Qed.

Lemma Forall_update_nth (P : row -> Prop) n f df :
  (forall r, P r -> P (f r)) ->
  Forall P df -> Forall P (Streamlit.update_nth n f df).
Proof.
  intros Hf. revert n.
  induction df as [|r df IH]; intros n H; simpl.
  - destruct n; constructor.
  - inversion H; subst.
    destruct n; constructor; auto.
Qed.

Lemma get_edit_cell_other c c' v r :
  c' <> c -> get c' (Streamlit.edit_cell c v r) = get c' r.
Proof.
  intros Hne. unfold Streamlit.edit_cell.
  destruct (get c r) as [old|]; [|reflexivity].
  destruct (Streamlit.accepts c old v); [|reflexivity].
  apply get_set_other. exact Hne.
Qed.

(** Edits outside a column leave that column as it was in every row. *)
Lemma data_editor_keeps c v es :
  Forall (fun e => edit_col e <> c) es ->
  forall df,
    Forall (fun r => get c r = Some v) df ->
    Forall (fun r => get c r = Some v) (Streamlit.data_editor df es).
Proof.
  unfold Streamlit.data_editor.
  induction es as [|e es IH]; intros Hes df Hdf; simpl; [exact Hdf|].
  inversion Hes; subst.
  apply IH; [assumption|].
  unfold Streamlit.apply_edit.
  apply Forall_update_nth; [|exact Hdf].
  intros r Hr. rewrite get_edit_cell_other; [exact Hr|].
  intros E. symmetry in E. contradiction.
Qed.

Lemma stamped_keeps c v set_prices w :
  c <> "timestamp" ->
  Forall (fun r => get c r = Some v) set_prices ->
  Forall (fun r => get c r = Some v) (stamped set_prices w).
Proof.
  intros Hc H. unfold stamped. apply Forall_forall. intros t Ht.
  apply in_map_iff in Ht. destruct Ht as [r [<- Hr]].
  rewrite get_with_column_row_other by exact Hc.
  rewrite Forall_forall in H. apply H. exact Hr.
Qed.

(** C10, as stated, fails: the operator types "promo" into the comment
    cell of the first row and presses the button; the first appended row
    carries "promo". *)
Lemma operator_comment_persisted :
  pricing_final Sample.warehouse0 = []
  /\ edits Sample.comments = [mkEdit 0 "comment" (VStr "promo")]
  /\ map (get "comment")
       (pricing_final
          (wh (run Sample.forty_per_unit Sample.comments
                 Sample.warehouse0)))
     = [Some (VStr "promo"); Some (VStr "")].
Proof.
  split; [reflexivity|]. split; [reflexivity|].
  vm_compute. reflexivity.
Qed.

(** C10, amended.  Every row gets the empty string as its comment when
    the table is loaded, and the data editor leaves that column open to
    edits like any other; a run in which the operator edits no comment
    cell appends only rows whose comment is the empty string. *)
Theorem comment_empty_unless_edited :
  (forall w df r,
      load_df w = Ok df -> In r df -> get "comment" r = Some (VStr ""))
  /\ (forall udf op w,
         Forall (fun e => edit_col e <> "comment") (edits op) ->
         forall t,
           In t (pricing_final (wh (run udf op w))) ->
           In t (pricing_final w) \/ get "comment" t = Some (VStr "")).
Proof.
  split.
  - intros w df r H Hr.
    pose proof (load_df_comment _ _ H) as F.
    rewrite Forall_forall in F. apply F. exact Hr.
  - intros udf op w Hes t Ht.
    destruct (run_final udf op w) as [F | [_ [sp [s1 [w' [H1 [_ F]]]]]]].
    { left. rewrite <- F. exact Ht. }
    rewrite F in Ht. apply in_app_or in Ht.
    destruct Ht as [Ht | Ht]; [left; exact Ht | right].
    destruct (price_management_inv _ _ _ _ H1) as [_ [_ [_ Hsp]]].
    destruct (Hsp sp eq_refl) as [df [brand [item [Hdf ->]]]].
    assert (K : Forall (fun r => get "comment" r = Some (VStr ""))
                  (stamped
                     (Streamlit.data_editor
                        (filter_brand_item brand item df) (edits op))
                     w')).
    { apply stamped_keeps; [discriminate|].
      apply data_editor_keeps; [exact Hes|].
      apply Forall_filter. eapply load_df_comment. exact Hdf. }
    rewrite Forall_forall in K. apply K. exact Ht.
Qed.

Lemma comment_empty_unless_edited_witness :
  Forall (fun t => get "comment" t = Some (VStr ""))
    (pricing_final
       (wh (run Sample.forty_per_unit Sample.commits Sample.warehouse0))).
Proof.
  apply Forall_forall. intros t Ht.
  destruct (proj2 comment_empty_unless_edited Sample.forty_per_unit
              Sample.commits Sample.warehouse0 (Forall_nil _) t Ht)
    as [[] | H].
  exact H.
Defined.

End Comment.

(** ** The data editor *)

Section Editor.
Import DataFrame.

Lemma set_columns c v r : columns (set c v r) = columns r.
Proof.
  unfold columns.
  induction r as [|[k w] r IH]; simpl; [reflexivity|].
  destruct (String.eqb c k); simpl; [reflexivity|].
  rewrite IH. reflexivity.
Qed.

Lemma edit_cell_columns c v r :
  columns (Streamlit.edit_cell c v r) = columns r.
Proof.
  unfold Streamlit.edit_cell.
  destruct (get c r) as [old|]; [|reflexivity].
  destruct (Streamlit.accepts c old v); [|reflexivity].
  apply set_columns.
Qed.

Lemma update_nth_map {B} (g : row -> B) n f df :
  (forall r, g (f r) = g r) ->
  map g (Streamlit.update_nth n f df) = map g df.
Proof.
  intros Hg. revert n.
  induction df as [|r df IH]; intros n; simpl.
  - destruct n; reflexivity.
  - destruct n; simpl; [rewrite Hg | rewrite IH]; reflexivity.
Qed.

(** X1.  The editor returns a frame of the same shape: as many rows, and in
    every row the same columns in the same order. *)
Theorem data_editor_keeps_shape :
  forall df es,
    List.length (Streamlit.data_editor df es) = List.length df
    /\ map columns (Streamlit.data_editor df es) = map columns df.
Proof.
  intros df es.
  assert (H : map columns (Streamlit.data_editor df es) = map columns df).
  { unfold Streamlit.data_editor. revert df.
    induction es as [|e es IH]; intros df; simpl; [reflexivity|].
    rewrite IH. unfold Streamlit.apply_edit.
    apply update_nth_map. intros r. apply edit_cell_columns. }
  split; [|exact H].
  apply (f_equal (@List.length _)) in H.
  rewrite !length_map in H. exact H.
Qed.

Lemma upper_ascii_not_n a : Ascii.eqb (Streamlit.upper_ascii a) "n" = false.
Proof. destruct a as [[] [] [] [] [] [] [] []]; reflexivity. Qed.

(** No label of the pandas frame is the key of the column
    configuration. *)
Lemma pandas_label_not_key c :
  String.eqb (Streamlit.pandas_label c) "new_price" = false.
Proof.
  unfold Streamlit.pandas_label. destruct c as [|a c]; simpl.
  - reflexivity.
  - rewrite upper_ascii_not_n. reflexivity.
Qed.

Lemma nth_error_update_nth n f df :
  nth_error (Streamlit.update_nth n f df) n
  = option_map f (nth_error df n).
Proof.
  revert n. induction df as [|r df IH]; intros n; simpl.
  - destruct n; reflexivity.
  - destruct n; simpl; [reflexivity | apply IH].
Qed.

(** X2.  The bounds of the number column are without effect: its key,
    ["new_price"], is not the label of any column of the frame the editor
    works on, so the editor takes whatever number the operator types as a
    new price, also one below 0 or above 1000. *)
Theorem number_column_bounds_unused :
  forall df n r p q,
    nth_error df n = Some r ->
    get "new_price" r = Some (VNum p) ->
    exists r',
      nth_error
        (Streamlit.data_editor df [mkEdit n "new_price" (VNum q)]) n
      = Some r'
      /\ get "new_price" r' = Some (VNum q)
      /\ forall c, c <> "new_price" -> get c r' = get c r.
Proof.
  intros df n r p q Hn Hp.
  unfold Streamlit.data_editor, Streamlit.apply_edit. simpl.
  rewrite nth_error_update_nth, Hn. simpl.
  eexists. split; [reflexivity|].
  unfold Streamlit.edit_cell. rewrite Hp.
  unfold Streamlit.accepts. rewrite pandas_label_not_key. simpl.
  split.
  - apply get_set_same. unfold has_col. rewrite Hp. reflexivity.
  - intros c Hc. apply get_set_other. exact Hc.
Qed.

Lemma number_column_bounds_unused_witness :
  exists r',
    nth_error
      (Streamlit.data_editor [Sample.monday; Sample.tuesday]
         [mkEdit 0 "new_price" (VNum 5000)]) 0
    = Some r'
    /\ get "new_price" r' = Some (VNum 5000)
    /\ forall c, c <> "new_price" -> get c r' = get c Sample.monday.
Proof.
  exact (number_column_bounds_unused [Sample.monday; Sample.tuesday] 0
           Sample.monday 3 5000 eq_refl eq_refl).
Defined.

(** Edits outside a column leave every statement about that column's cell
    as it was. *)
Lemma data_editor_keeps_cell (P : option value -> Prop) c es :
  Forall (fun e => edit_col e <> c) es ->
  forall df,
    Forall (fun r => P (get c r)) df ->
    Forall (fun r => P (get c r)) (Streamlit.data_editor df es).
Proof.
  unfold Streamlit.data_editor.
  induction es as [|e es IH]; intros Hes df Hdf; simpl; [exact Hdf|].
  inversion Hes; subst.
  apply IH; [assumption|].
  unfold Streamlit.apply_edit.
  apply Forall_update_nth; [|exact Hdf].
  intros r Hr. rewrite get_edit_cell_other; [exact Hr|].
  intros E. symmetry in E. contradiction.
Qed.

(** X3.  When the operator retypes no brand and no item, all rows handed on by
    the first tab belong to one brand and one item. *)
Theorem set_prices_one_scope :
  forall op s set_prices s',
    price_management op s = (Ok set_prices, s') ->
    Forall (fun e => edit_col e <> "brand") (edits op) ->
    Forall (fun e => edit_col e <> "item") (edits op) ->
    exists brand item, Forall (in_scope brand item) set_prices.
Proof.
  intros op s sp s' H Hb Hi.
  destruct (price_management_inv _ _ _ _ H) as [_ [_ [_ Hsp]]].
  destruct (Hsp sp eq_refl) as [df [brand [item [_ ->]]]].
  exists brand, item.
  assert (Hshown : Forall (in_scope brand item)
                     (filter_brand_item brand item df)).
  { apply Forall_forall. intros r Hr. unfold filter_brand_item in Hr.
    apply filter_In in Hr. destruct Hr as [_ Hr].
    apply andb_true_iff in Hr. exact Hr. }
  assert (B : Forall (fun r => cell_is "brand" brand r = true)
                (Streamlit.data_editor (filter_brand_item brand item df)
                   (edits op))).
  { apply (data_editor_keeps_cell
             (fun o => match o with
                       | Some w => value_eqb w brand
                       | None => false
                       end = true) "brand" _ Hb).
    eapply Forall_impl; [|exact Hshown]. intros r [Hr _]. exact Hr. }
  assert (I : Forall (fun r => cell_is "item" item r = true)
                (Streamlit.data_editor (filter_brand_item brand item df)
                   (edits op))).
  { apply (data_editor_keeps_cell
             (fun o => match o with
                       | Some w => value_eqb w item
                       | None => false
                       end = true) "item" _ Hi).
    eapply Forall_impl; [|exact Hshown]. intros r [_ Hr]. exact Hr. }
  rewrite Forall_forall in *. intros r Hr. split; auto.
Qed.

Lemma set_prices_one_scope_witness :
  exists brand item,
    Forall (in_scope brand item)
      (Streamlit.data_editor
         (filter_brand_item (VStr "Grill") (VStr "Burger")
            (map (with_column_row "comment" (VStr ""))
               [Sample.monday; Sample.tuesday]))
         (edits Sample.reprices)).
Proof.
  refine (set_prices_one_scope Sample.reprices
            (mkState Sample.warehouse0 []) _ _ eq_refl _ _);
    (apply Forall_cons; [|apply Forall_cons; [|apply Forall_nil]]);
    discriminate.
Defined.

End Editor.

(** ** What a run writes and shows *)

Section RunEffects.
Import DataFrame.

Variable udf : list value -> result value.

Lemma tables_catalog w1 w2 :
  tables w1 = tables w2 ->
  pricing w1 = pricing w2 /\ pricing_detail w1 = pricing_detail w2.
Proof. unfold tables. intros H. inversion H. auto. Qed.

Lemma update_prices_catalog set_prices s r s' :
  update_prices set_prices s = (r, s') ->
  pricing (wh s') = pricing (wh s)
  /\ pricing_detail (wh s') = pricing_detail (wh s).
Proof.
  unfold update_prices, bind, save_as_table, render.
  destruct (write_fault (tick (wh s))); intros H; inversion H; auto.
Qed.

Lemma body_catalog op s r s' :
  body udf op s = (r, s') ->
  pricing (wh s') = pricing (wh s)
  /\ pricing_detail (wh s') = pricing_detail (wh s).
Proof.
  unfold body. intros B.
  apply bind_inv in B.
  destruct B as [[sp [s1 [H1 B]]] | [e [H1 _]]];
    destruct (price_management_inv _ _ _ _ H1) as [_ [T1 _]];
    apply tables_catalog in T1; destruct T1 as [A1 D1];
    [|split; assumption].
  apply bind_inv in B.
  destruct B as [[[] [s2 [H2 B]]] | [e [H2 _]]];
    destruct (demand_forecast_inv udf _ _ _ _ H2) as [T2 _];
    apply tables_catalog in T2; destruct T2 as [A2 D2];
    [|split; congruence].
  apply bind_inv in B.
  destruct B as [[[] [s3 [H3 B]]] | [e [H3 _]]].
  - assert (C : pricing (wh s3) = pricing (wh s2)
                /\ pricing_detail (wh s3) = pricing_detail (wh s2)).
    { destruct (update_clicked op).
      - apply update_prices_catalog in H3. exact H3.
      - unfold ret in H3. inversion H3. auto. }
    destruct C as [A3 D3].
    destruct (view_history_inv _ _ _ B) as [T4 _].
    apply tables_catalog in T4. destruct T4 as [A4 D4].
    split; congruence.
  - assert (C : pricing (wh s') = pricing (wh s2)
                /\ pricing_detail (wh s') = pricing_detail (wh s2)).
    { destruct (update_clicked op).
      - apply update_prices_catalog in H3. exact H3.
      - unfold ret in H3. inversion H3. }
    destruct C as [A3 D3]. split; congruence.
Qed.

(** X5.  A run never touches the catalog tables, and the log only grows: the
    rows it held before the run are all still there, unchanged; a run
    without a click on the button appends nothing. *)
Theorem run_append_only :
  forall op w,
    pricing (wh (run udf op w)) = pricing w
    /\ pricing_detail (wh (run udf op w)) = pricing_detail w
    /\ exists appended,
        pricing_final (wh (run udf op w)) = pricing_final w ++ appended
        /\ (update_clicked op = false -> appended = []).
Proof.
  intros op w.
  assert (C : pricing (wh (run udf op w)) = pricing w
              /\ pricing_detail (wh (run udf op w)) = pricing_detail w).
  { unfold run.
    destruct (body udf op (mkState w [])) as [[[] | e] s] eqn:B;
      apply body_catalog in B; exact B. }
  destruct C as [C1 C2]. split; [exact C1|]. split; [exact C2|].
  destruct (run_final udf op w) as [F | [C [sp [s1 [w' [_ [_ F]]]]]]].
  - exists []. rewrite app_nil_r. auto.
  - exists (stamped sp w'). split; [exact F|].
    intros C'. rewrite C in C'. discriminate.
Qed.

(** X6.  When the success message is on the page, the run has appended exactly
    the rows of the edited frame, one for one, each with its column
    [timestamp] set to one and the same time, which is not before the
    start of the run. *)
Theorem success_appends_edited_frame :
  forall op w,
    In (Success "Prices updated successfully!") (page (run udf op w)) ->
    exists set_prices s1 ts,
      price_management op (mkState w []) = (Ok set_prices, s1)
      /\ (now w <= ts)%Z
      /\ pricing_final (wh (run udf op w))
         = pricing_final w
           ++ map (with_column_row "timestamp" (VTime ts)) set_prices
      /\ Forall (fun t => get "timestamp" t = Some (VTime ts))
           (map (with_column_row "timestamp" (VTime ts)) set_prices).
Proof.
  intros op w Hin.
  destruct (run_success udf op w Hin) as [_ [sp [s1 [w' [H1 [N F]]]]]].
  exists sp, s1, (now w'). split; [exact H1|]. split; [exact N|].
  split; [exact F|].
  apply Forall_forall. intros t Ht.
  apply in_map_iff in Ht. destruct Ht as [r [<- _]].
  apply get_with_column_row_same.
Qed.

(** X7.  A run that raises nothing ends with the history table, and that
    table holds exactly the rows of the log as the run leaves it (the
    rows appended by this very run included), newest first. *)
Theorem history_shows_final_log :
  forall op w,
    fst (body udf op (mkState w [])) = Ok tt ->
    exists shown h,
      page (run udf op w) = shown ++ [Table h]
      /\ Permutation (pricing_final (wh (run udf op w))) h
      /\ StronglySorted newer_first h.
Proof.
  intros op w Hok.
  destruct (run_ok_page udf op w Hok) as [shown P].
  exists shown, (history_df (wh (run udf op w))).
  split; [exact P|]. split; [apply history_perm|].
  apply history_newer_first.
Qed.

End RunEffects.

Section RunEffectsWitnesses.

Lemma success_appends_edited_frame_witness :
  exists set_prices s1 ts,
    price_management Sample.commits (mkState Sample.warehouse0 [])
    = (Ok set_prices, s1)
    /\ (1000 <= ts)%Z
    /\ pricing_final
         (wh (run Sample.forty_per_unit Sample.commits Sample.warehouse0))
       = [] ++ map (DataFrame.with_column_row "timestamp" (VTime ts))
                 set_prices
    /\ Forall (fun t => DataFrame.get "timestamp" t = Some (VTime ts))
         (map (DataFrame.with_column_row "timestamp" (VTime ts))
            set_prices).
Proof.
  apply (success_appends_edited_frame Sample.forty_per_unit Sample.commits
           Sample.warehouse0).
  vm_compute. tauto.
Defined.

Lemma history_shows_final_log_witness :
  exists shown h,
    page (run Sample.forty_per_unit Sample.commits Sample.warehouse0)
    = shown ++ [Table h]
    /\ Permutation
         (pricing_final
            (wh (run Sample.forty_per_unit Sample.commits
                   Sample.warehouse0))) h
    /\ StronglySorted newer_first h.
Proof.
  exact (history_shows_final_log Sample.forty_per_unit Sample.commits
           Sample.warehouse0 eq_refl).
Defined.

End RunEffectsWitnesses.

(** ** An empty join *)

Section Metrics.
Import DataFrame.

Lemma flat_map_nil {A B} (f : A -> list B) l :
  (forall a, In a l -> f a = []) -> flat_map f l = [].
Proof.
  induction l as [|a l IH]; intros H; simpl; [reflexivity|].
  rewrite (H a) by (left; reflexivity).
  apply IH. intros b Hb. apply H. right. exact Hb.
Qed.

(** X10.  When no record of the candidate set has a detail row (in particular
    when either frame is empty), nothing is scored, nothing fails, and
    both metrics are NULL. *)
Theorem no_match_null_lifts :
  forall udf set_prices w,
    Sql.check_cols join_cols set_prices = Ok tt ->
    Sql.check_cols join_cols (pricing_detail w) = Ok tt ->
    (forall l d, In l set_prices -> In d (pricing_detail w) ->
                 Sql.keys_match join_cols l d = false) ->
    df_demand udf set_prices (pricing_detail w) = Ok []
    /\ demand_lift_query udf set_prices w = Ok VNull
    /\ profit_lift_query udf set_prices w = Ok VNull.
Proof.
  intros udf sp w Hl Hr Hno.
  assert (D : df_demand udf sp (pricing_detail w) = Ok []).
  { unfold df_demand, Sql.join. rewrite Hl, Hr. simpl.
    rewrite flat_map_nil; [reflexivity|].
    intros l Hin. rewrite filter_none; [reflexivity|].
    intros d Hd. apply Hno; assumption. }
  split; [exact D|].
  unfold demand_lift_query, profit_lift_query. rewrite D.
  split; reflexivity.
Qed.

End Metrics.

Section MetricsWitnesses.

Lemma no_match_null_lifts_witness :
  df_demand Sample.forty_per_unit [Sample.monday; Sample.tuesday]
    (pricing_detail Sample.warehouse_no_detail) = Ok []
  /\ demand_lift_query Sample.forty_per_unit [Sample.monday; Sample.tuesday]
       Sample.warehouse_no_detail = Ok VNull
  /\ profit_lift_query Sample.forty_per_unit [Sample.monday; Sample.tuesday]
       Sample.warehouse_no_detail = Ok VNull.
Proof.
  apply no_match_null_lifts; [reflexivity | reflexivity |].
  intros l d _ [].
Defined.

End MetricsWitnesses.

(** ** Scoring the joined rows *)

Section Scoring.
Import DataFrame.

Lemma mapM_raise {A B} (f : A -> result B) l a e :
  In a l -> f a = Raise e ->
  exists a' e', In a' l /\ f a' = Raise e' /\ mapM f l = Raise e'.
Proof.
  induction l as [|x l IH]; intros Hin Hf; [contradiction|].
  simpl. destruct (f x) as [b | ex] eqn:Fx.
  - destruct Hin as [-> | Hin]; [congruence|].
    destruct (IH Hin Hf) as [a' [e' [Ha' [Hf' Hm]]]].
    exists a', e'. split; [right; exact Ha'|]. split; [exact Hf'|].
    rewrite Hm. reflexivity.
  - exists x, ex. split; [left; reflexivity|]. split; [exact Fx|].
    reflexivity.
Qed.

Lemma mapM_Forall2 {A B} (f : A -> result B) l bs :
  mapM f l = Ok bs -> Forall2 (fun a b => f a = Ok b) l bs.
Proof.
  revert bs.
  induction l as [|a l IH]; simpl; intros bs H.
  - inversion H. constructor.
  - destruct (f a) as [b|] eqn:Fa; [|discriminate]. simpl in H.
    destruct (mapM f l) as [bs'|]; [|discriminate].
    inversion H; subst. constructor; [exact Fa | apply IH; reflexivity].
Qed.

(** X11.  Scoring is all or nothing: when the model (or a column lookup) fails
    on any one joined row, the evaluation raises the exception of such a
    row, and nothing is rendered; no metric is computed from the rows
    that could be scored. *)
Theorem scoring_failure_fails_evaluation :
  forall udf set_prices s joined r e,
    Sql.join set_prices (pricing_detail (wh s)) join_cols = Ok joined ->
    In r joined ->
    df_demand_row udf r = Raise e ->
    exists r' e' s',
      In r' joined
      /\ df_demand_row udf r' = Raise e'
      /\ evaluate udf set_prices s = (Raise e', s')
      /\ page s' = page s.
Proof.
  intros udf sp s joined r e Hj Hin Hr.
  destruct (mapM_raise _ _ _ _ Hin Hr) as [r' [e' [Hin' [Hr' Hm]]]].
  exists r', e'. eexists. split; [exact Hin'|]. split; [exact Hr'|].
  unfold evaluate, bind. rewrite query_result.
  unfold demand_lift_query, df_demand.
  change (pricing_detail (tick (wh s))) with (pricing_detail (wh s)).
  rewrite Hj. simpl. rewrite Hm. simpl. split; reflexivity.
Qed.

Lemma mapM_col_first_missing r cs :
  match Sql.first_missing cs r with
  | Some c => mapM (fun c => col c r) cs = Raise (invalid_identifier c)
  | None => exists args, mapM (fun c => col c r) cs = Ok args
  end.
Proof.
  unfold Sql.first_missing.
  induction cs as [|c cs IH]; simpl.
  - exists []. reflexivity.
  - destruct (get c r) as [v|] eqn:G.
    + assert (Hh : has_col c r = true)
        by (unfold has_col; rewrite G; reflexivity).
      assert (Hcol : col c r = Ok v)
        by (unfold col; rewrite G; reflexivity).
      rewrite Hh, Hcol. simpl.
      destruct (find (fun c0 => negb (has_col c0 r)) cs) as [c'|].
      * rewrite IH. reflexivity.
      * destruct IH as [args ->]. exists (v :: args). reflexivity.
    + assert (Hh : has_col c r = false)
        by (unfold has_col; rewrite G; reflexivity).
      assert (Hcol : col c r = Raise (invalid_identifier c))
        by (unfold col; rewrite G; reflexivity).
      rewrite Hh, Hcol. reflexivity.
Qed.

(** X12.  The argument sequence exists exactly when the row has all fourteen
    feature columns; a row that lacks one makes the lookup fail with an
    error that names a feature column the row lacks. *)
Theorem udf_args_needs_columns :
  forall r,
    (Sql.has_cols feature_cols r = true ->
     exists args, udf_args r = Ok args)
    /\ (Sql.has_cols feature_cols r = false ->
        exists c, In c feature_cols /\ has_col c r = false
                  /\ udf_args r = Raise (invalid_identifier c)).
Proof.
  intros r. pose proof (mapM_col_first_missing r feature_cols) as H.
  fold (udf_args r) in H.
  split.
  - intros Hc. rewrite (first_missing_has_cols _ _ Hc) in H. exact H.
  - intros Hc.
    destruct (Sql.first_missing feature_cols r) as [c|] eqn:F.
    + exists c. unfold Sql.first_missing in F.
      apply find_some in F. destruct F as [Hin Hn].
      apply negb_true_iff in Hn. auto.
    + exfalso. unfold Sql.first_missing in F. unfold Sql.has_cols in Hc.
      assert (forallb (fun c => has_col c r) feature_cols = true);
        [|congruence].
      apply forallb_forall. intros c Hin.
      pose proof (find_none _ _ F c Hin) as Hn.
      apply negb_false_iff in Hn. exact Hn.
Qed.

Lemma existsb_eqb_in c on :
  In c on -> existsb (String.eqb c) on = true.
Proof.
  intros H. apply existsb_exists. exists c.
  split; [exact H | apply String.eqb_refl].
Qed.

(** A join column, and a column that only the record has, keeps the
    record's cell in the joined row. *)
Lemma get_join_row_left on c l d :
  has_col c l = true ->
  In c on \/ has_col c d = false ->
  get c (Sql.join_row on l d) = get c l.
Proof.
  unfold Sql.join_row. intros H Hc.
  rewrite !get_app, get_filter_key, !get_filter_own.
  unfold has_col in H.
  destruct (get c l) as [v|] eqn:G; [|discriminate].
  destruct (existsb (String.eqb c) on) eqn:E; [reflexivity|].
  destruct Hc as [Hc | Hc].
  - rewrite (existsb_eqb_in _ _ Hc) in E. discriminate.
  - rewrite Hc. reflexivity.
Qed.

Lemma filter_one {A} (p : A -> bool) l :
  List.length (filter p l) = 1%nat ->
  exists a, filter p l = [a] /\ In a l /\ p a = true.
Proof.
  intros H. destruct (filter p l) as [|a [|b t]] eqn:F; try discriminate.
  exists a. split; [reflexivity|].
  assert (Ha : In a (filter p l)) by (rewrite F; left; reflexivity).
  apply filter_In in Ha. exact Ha.
Qed.

Lemma join_one_to_one set_prices detail :
  Sql.check_cols join_cols set_prices = Ok tt ->
  Sql.check_cols join_cols detail = Ok tt ->
  Forall (fun l =>
            List.length (filter (Sql.keys_match join_cols l) detail)
            = 1%nat) set_prices ->
  exists joined,
    Sql.join set_prices detail join_cols = Ok joined
    /\ Forall2
         (fun l j =>
            exists d,
              In d detail
              /\ Sql.keys_match join_cols l d = true
              /\ j = Sql.join_row join_cols l d)
         set_prices joined.
Proof.
  intros Hl Hr Hone.
  unfold Sql.join. rewrite Hl, Hr. simpl.
  eexists. split; [reflexivity|].
  clear Hl. induction set_prices as [|l sp IH]; simpl; [constructor|].
  inversion Hone as [|? ? H1 Hrest]; subst.
  destruct (filter_one _ _ H1) as [d [F [Hd Hm]]].
  rewrite F. simpl. constructor; [|apply IH; exact Hrest].
  exists d. auto.
Qed.

Lemma Forall2_in_left {A B} (R : A -> B -> Prop) l l' a :
  Forall2 R l l' -> In a l -> exists b, In b l' /\ R a b.
Proof.
  induction 1 as [|x y l l' Hxy _ IH]; intros Hin; [contradiction|].
  destruct Hin as [-> | Hin].
  - exists y. split; [left; reflexivity | exact Hxy].
  - destruct (IH Hin) as [b [Hb Hab]]. exists b. split; [right|]; assumption.
Qed.

(** X13.  When every record of the candidate set has exactly one detail row,
    the join has as many rows as there are records, and every record is
    in it, joined with its detail row; the joined row keeps the record's
    cell in every join column and in every column that the detail row
    does not have as well.  No record is lost and none counts twice. *)
Theorem join_one_row_per_record :
  forall set_prices detail,
    Sql.check_cols join_cols set_prices = Ok tt ->
    Sql.check_cols join_cols detail = Ok tt ->
    Forall (fun l =>
              List.length (filter (Sql.keys_match join_cols l) detail)
              = 1%nat) set_prices ->
    exists joined,
      Sql.join set_prices detail join_cols = Ok joined
      /\ List.length joined = List.length set_prices
      /\ forall l, In l set_prices ->
           exists d,
             In d detail
             /\ Sql.keys_match join_cols l d = true
             /\ In (Sql.join_row join_cols l d) joined
             /\ forall c,
                 has_col c l = true ->
                 In c join_cols \/ has_col c d = false ->
                 get c (Sql.join_row join_cols l d) = get c l.
Proof.
  intros sp detail Hl Hr Hone.
  destruct (join_one_to_one sp detail Hl Hr Hone) as [joined [Hj F]].
  exists joined. split; [exact Hj|]. split.
  - symmetry. eapply Forall2_length. exact F.
  - intros l Hin.
    destruct (Forall2_in_left _ _ _ _ F Hin) as [j [Hjin [d [Hd [Hm ->]]]]].
    exists d. split; [exact Hd|]. split; [exact Hm|].
    split; [exact Hjin|].
    intros c Hc Hown. apply get_join_row_left; assumption.
Qed.

Lemma col_ok c r v : col c r = Ok v -> get c r = Some v.
Proof.
  unfold col. destruct (get c r); intros H; inversion H. reflexivity.
Qed.

End Scoring.

Section ScoringWitnesses.

Lemma scoring_failure_fails_evaluation_witness :
  exists r' e' s',
    In r' [Sql.join_row join_cols Sample.monday Sample.monday_detail]
    /\ df_demand_row (Sample.failing "ValueError" "no model") r'
       = Raise e'
    /\ evaluate (Sample.failing "ValueError" "no model") [Sample.monday]
         (mkState Sample.warehouse_no_tuesday [])
       = (Raise e', s')
    /\ page s' = [].
Proof.
  refine (scoring_failure_fails_evaluation
            (Sample.failing "ValueError" "no model") [Sample.monday]
            (mkState Sample.warehouse_no_tuesday []) _ _
            (mkExn "ValueError" "no model") eq_refl
            (or_introl eq_refl) _).
  vm_compute. reflexivity.
Defined.

Lemma udf_args_needs_columns_witness :
  exists c,
    In c feature_cols
    /\ DataFrame.has_col c Sample.monday_detail = false
    /\ udf_args Sample.monday_detail = Raise (invalid_identifier c).
Proof.
  exact (proj2 (udf_args_needs_columns Sample.monday_detail) eq_refl).
Defined.

Lemma join_one_row_per_record_witness :
  exists joined,
    Sql.join [Sample.monday; Sample.tuesday]
      [Sample.monday_detail; Sample.tuesday_detail] join_cols = Ok joined
    /\ List.length joined = 2%nat
    /\ forall l, In l [Sample.monday; Sample.tuesday] ->
         exists d,
           In d [Sample.monday_detail; Sample.tuesday_detail]
           /\ Sql.keys_match join_cols l d = true
           /\ In (Sql.join_row join_cols l d) joined
           /\ forall c,
               DataFrame.has_col c l = true ->
               In c join_cols \/ DataFrame.has_col c d = false ->
               DataFrame.get c (Sql.join_row join_cols l d)
               = DataFrame.get c l.
Proof.
  assert (H : Forall
                (fun l =>
                   List.length
                     (filter (Sql.keys_match join_cols l)
                        [Sample.monday_detail; Sample.tuesday_detail])
                   = 1%nat) [Sample.monday; Sample.tuesday]).
  { apply Forall_cons; [reflexivity|].
    apply Forall_cons; [reflexivity|]. apply Forall_nil. }
  exact (join_one_row_per_record [Sample.monday; Sample.tuesday]
           [Sample.monday_detail; Sample.tuesday_detail]
           eq_refl eq_refl H).
Defined.

End ScoringWitnesses.

(** ** The scope of the first tab *)

Section Scope.
Import DataFrame.

Lemma value_eqb_refl v : v <> VNull -> value_eqb v v = true.
Proof.
  destruct v as [| q | s | t]; intros H; simpl.
  - congruence.
  - apply Qeq_bool_iff. reflexivity.
  - apply String.eqb_refl.
  - apply Z.eqb_refl.
Qed.

Lemma distinct_from_in seen l v : In v (distinct_from seen l) -> In v l.
Proof.
  revert seen.
  induction l as [|x l IH]; intros seen H; simpl in *; [exact H|].
  destruct (existsb (same_value x) seen).
  - right. eapply IH. exact H.
  - destruct H as [-> | H]; [left; reflexivity|].
    right. eapply IH. exact H.
Qed.

Lemma distinct_not_empty l : l <> [] -> distinct l <> [].
Proof.
  destruct l as [|x l]; [congruence|]. intros _. unfold distinct. simpl.
  discriminate.
Qed.

Lemma selectbox_in options n :
  options <> [] -> In (Streamlit.selectbox options n) options.
Proof.
  intros H. unfold Streamlit.selectbox.
  destruct (nth_in_or_default n options (hd VNull options)) as [Hin | ->].
  - exact Hin.
  - destruct options; [congruence | left; reflexivity].
Qed.

Lemma select1_cells c df cells :
  select1 c df = Ok cells ->
  List.length cells = List.length df
  /\ forall v, In v cells -> exists r, In r df /\ get c r = Some v.
Proof.
  unfold select1. intros H. split.
  - eapply mapM_length. exact H.
  - apply mapM_Forall2 in H. induction H as [|r v df cells Hrv _ IH].
    + intros v [].
    + intros w [<- | Hw].
      * exists r. split; [left; reflexivity | apply col_ok; exact Hrv].
      * destruct (IH w Hw) as [r' [Hr' G]].
        exists r'. split; [right; exact Hr' | exact G].
Qed.

Lemma update_nth_length n f df :
  List.length (Streamlit.update_nth n f df) = List.length df.
Proof.
  revert n. induction df as [|r df IH]; intros n; simpl.
  - destruct n; reflexivity.
  - destruct n; simpl; [|rewrite IH]; reflexivity.
Qed.

Lemma data_editor_length df es :
  List.length (Streamlit.data_editor df es) = List.length df.
Proof.
  unfold Streamlit.data_editor. revert df.
  induction es as [|e es IH]; intros df; simpl; [reflexivity|].
  rewrite IH. apply update_nth_length.
Qed.

Lemma not_empty_length {A} (l : list A) : l <> [] <-> (0 < List.length l)%nat.
Proof.
  destruct l; simpl; split; intros H;
    try congruence; try lia; try discriminate.
Qed.

(** X4.  The select boxes offer what the table holds, so the scope they fix is
    never empty: when the pricing table has rows and no NULL brand or
    item, the frame handed on by the first tab has at least one row. *)
Theorem scope_not_empty :
  forall op s set_prices s',
    price_management op s = (Ok set_prices, s') ->
    pricing (wh s) <> [] ->
    (forall r, In r (pricing (wh s)) ->
               get "brand" r <> Some VNull /\ get "item" r <> Some VNull) ->
    set_prices <> [].
Proof.
  intros op s sp s' H Hne Hnn.
  unfold price_management in H.
  apply bind_inv in H.
  destruct H as [[df [s1 [H1 H]]] | [e [_ E]]]; [|discriminate E].
  apply query_inv in H1. destruct H1 as [E1 _].
  apply bind_inv in H.
  destruct H as [[brands [s2 [H2 H]]] | [e [_ E]]]; [|discriminate E].
  apply query_inv in H2. destruct H2 as [E2 _].
  apply bind_inv in H.
  destruct H as [[items [s3 [H3 H]]] | [e [_ E]]]; [|discriminate E].
  apply query_inv in H3. destruct H3 as [E3 _].
  apply bind_inv in H.
  destruct H as [[shown [s4 [H4 H]]] | [e [_ E]]]; [|discriminate E].
  apply query_inv in H4. destruct H4 as [E4 _].
  unfold ret in H. inversion H. subst sp s'. clear H.
  inversion E4. subst shown. clear E4.
  symmetry in E1, E2, E3.
  unfold load_df in E1. rewrite with_column_const in E1.
  change (pricing (tick (wh s))) with (pricing (wh s)) in E1.
  inversion E1. subst df. clear E1.
  set (df := map (with_column_row "comment" (VStr "")) (pricing (wh s)))
    in *.
  assert (Hdf : forall r, In r df ->
                  get "brand" r <> Some VNull
                  /\ get "item" r <> Some VNull).
  { intros r Hr. apply in_map_iff in Hr. destruct Hr as [r0 [<- Hr0]].
    rewrite !get_with_column_row_other by discriminate.
    apply Hnn. exact Hr0. }
  assert (Hdfne : df <> []).
  { unfold df. destruct (pricing (wh s)); [congruence | discriminate]. }
  destruct (select1_cells _ _ _ E2) as [Lb Cb].
  assert (Hb : brands <> []).
  { apply not_empty_length. rewrite Lb. apply not_empty_length. exact Hdfne. }
  set (brand := Streamlit.selectbox (distinct brands) (brand_choice op)) in *.
  assert (Bin : In brand brands).
  { apply (distinct_from_in []). apply selectbox_in.
    apply distinct_not_empty. exact Hb. }
  destruct (Cb brand Bin) as [r0 [Hr0 G0]].
  assert (Nb : brand <> VNull).
  { intros E. rewrite E in G0. destruct (Hdf r0 Hr0) as [N _]. contradiction. }
  assert (F0 : In r0 (filter_brand brand df)).
  { unfold filter_brand. apply filter_In. split; [exact Hr0|].
    unfold cell_is. rewrite G0. apply value_eqb_refl. exact Nb. }
  destruct (select1_cells _ _ _ E3) as [Li Ci].
  assert (Hi : items <> []).
  { apply not_empty_length. rewrite Li. apply not_empty_length.
    intros E. rewrite E in F0. contradiction. }
  set (item := Streamlit.selectbox (distinct items) (item_choice op)) in *.
  assert (Iin : In item items).
  { apply (distinct_from_in []). apply selectbox_in.
    apply distinct_not_empty. exact Hi. }
  destruct (Ci item Iin) as [r1 [Hr1 G1]].
  unfold filter_brand in Hr1. apply filter_In in Hr1.
  destruct Hr1 as [Hr1 B1].
  assert (Ni : item <> VNull).
  { intros E. rewrite E in G1. destruct (Hdf r1 Hr1) as [_ N]. contradiction. }
  assert (F1 : In r1 (filter_brand_item brand item df)).
  { unfold filter_brand_item. apply filter_In. split; [exact Hr1|].
    rewrite B1. simpl. unfold cell_is. rewrite G1.
    apply value_eqb_refl. exact Ni. }
  apply not_empty_length. rewrite data_editor_length.
  apply not_empty_length. intros E. rewrite E in F1. contradiction.
Qed.

End Scope.

Section ScopeWitnesses.

Lemma scope_not_empty_witness :
  Streamlit.data_editor
    (filter_brand_item (VStr "Grill") (VStr "Burger")
       (map (DataFrame.with_column_row "comment" (VStr ""))
          [Sample.monday; Sample.tuesday]))
    (edits Sample.reprices)
  <> [].
Proof.
  refine (scope_not_empty Sample.reprices (mkState Sample.warehouse0 [])
            _ _ eq_refl _ _).
  - discriminate.
  - intros r [<- | [<- | []]]; split; discriminate.
Defined.

Lemma run_append_only_witness :
  exists appended,
    pricing_final
      (wh (run Sample.forty_per_unit Sample.looks Sample.warehouse0))
    = pricing_final Sample.warehouse0 ++ appended
    /\ (update_clicked Sample.looks = false -> appended = []).
Proof.
  exact (proj2 (proj2 (run_append_only Sample.forty_per_unit Sample.looks
                         Sample.warehouse0))).
Defined.

End ScopeWitnesses.
